(** * PureTone-Karaoke: pipeline orchestration and degradation policy

    A shallow embedding of [karaoke_engine.py] and of the processing branch
    of [app.py].  Every call that leaves the Python process (subprocesses,
    the file system, the recognition engine, the subtitle library, the
    Streamlit widgets) is answered by an oracle that sees the whole history
    of earlier calls; the history is the state threaded through the code,
    and Python exceptions are an explicit outcome. *)

From Stdlib Require Import String Ascii List ZArith NArith Bool Lia Floats.
From Stdlib Require Import Sorted DecimalString.
Import ListNotations.

Local Open Scope string_scope.

(** ** Python strings used as paths, commands and model names *)

Module PyStr.

(** The double quote character, written inside the f-strings of the
    source around every path. *)
Definition dq : string := String (ascii_of_nat 34) EmptyString.

(** [f'"{s}"'] *)
Definition quoted (s : string) : string := dq ++ s ++ dq.

(** [sub in s] *)
Fixpoint contains (sub s : string) : bool :=
  if prefix sub s then true
  else match s with
       | EmptyString => false
       | String _ s' => contains sub s'
       end.

Fixpoint ends_with_sep (s : string) : bool :=
  match s with
  | EmptyString => false
  | String c EmptyString => Ascii.eqb c "/"
  | String _ s' => ends_with_sep s'
  end.

(** [os.path.join(a, b)] of posixpath. *)
Definition join (a b : string) : string :=
  if prefix "/" b then b
  else if String.eqb a EmptyString || ends_with_sep a then a ++ b
  else a ++ "/" ++ b.

(** [os.path.join(a, b, c)]: the components are folded from the left. *)
Definition join3 (a b c : string) : string := join (join a b) c.

(** [os.path.basename(p)]: what follows the last slash. *)
Fixpoint basename (p : string) : string :=
  match p with
  | EmptyString => EmptyString
  | String c rest =>
      if contains "/" rest then basename rest
      else if Ascii.eqb c "/" then rest
      else p
  end.

Fixpoint rfind_from (c : ascii) (s : string) (i acc : Z) : Z :=
  match s with
  | EmptyString => acc
  | String d s' => rfind_from c s' (i + 1) (if Ascii.eqb d c then i else acc)
  end.

(** [s.rfind(c)], -1 when [c] does not occur. *)
Definition rfind (c : ascii) (s : string) : Z := rfind_from c s 0 (-1).

(** [os.path.splitext(p)[0]]: the extension starts at the last dot, when
    that dot comes after the last slash and after a character of the file
    name that is not itself a dot. *)
Definition splitext_root (p : string) : string :=
  let sepIndex := rfind "/" p in
  let dotIndex := rfind "." p in
  if (sepIndex <? dotIndex)%Z then
    let lead := substring (Z.to_nat (sepIndex + 1))
                          (Z.to_nat (dotIndex - (sepIndex + 1))) p in
    if existsb (fun ch => negb (Ascii.eqb ch ".")) (list_ascii_of_string lead)
    then substring 0 (Z.to_nat dotIndex) p
    else p
  else p.

(** [s.replace(c, by)] for a one-character pattern. *)
Fixpoint replace_char (c : ascii) (by_ : string) (s : string) : string :=
  match s with
  | EmptyString => EmptyString
  | String d s' =>
      if Ascii.eqb d c then by_ ++ replace_char c by_ s'
      else String d (replace_char c by_ s')
  end.

End PyStr.
Import PyStr.

(** ** Python text: sequences of code points, and [str.strip()] *)

Module PyText.

Definition pystr : Type := list N.

(** [str.isspace] on one code point (the white-space table of CPython). *)
Definition is_space (c : N) : bool :=
  ((9 <=? c) && (c <=? 13) || (28 <=? c) && (c <=? 32)
   || (c =? 133) || (c =? 160) || (c =? 5760)
   || (8192 <=? c) && (c <=? 8202)
   || (c =? 8232) || (c =? 8233) || (c =? 8239) || (c =? 8287)
   || (c =? 12288))%N.

Fixpoint lstrip (s : pystr) : pystr :=
  match s with
  | c :: s' => if is_space c then lstrip s' else s
  | [] => []
  end.

Definition rstrip (s : pystr) : pystr := rev (lstrip (rev s)).

(** [s.strip()] *)
Definition strip (s : pystr) : pystr := rstrip (lstrip s).

End PyText.
Import PyText.

(** ** Data exchanged with the engines *)

(** One element of [result["segments"]] of the recognition engine: the
    dictionary keys [start], [end] and [text]. *)
Record segment : Type := {
  seg_start : float;
  seg_end   : float;
  seg_text  : pystr
}.

(** [datetime.timedelta(seconds=x)], kept as the constructor call: the
    rendering to hours, minutes, seconds and milliseconds belongs to the
    subtitle library. *)
Inductive timedelta : Type :=
| Timedelta (seconds : float).

(** The arguments of [pysrt.SubRipItem(index=, start=, end=, text=)]. *)
Record SubRipItem : Type := {
  item_index : Z;
  item_start : timedelta;
  item_end   : timedelta;
  item_text  : pystr
}.

(** Python exceptions that the modelled code can meet. *)
Inductive exn : Type :=
| CalledProcessError      (* subprocess: non-zero exit status *)
| OSError                 (* file system *)
| UnicodeDecodeError
| ValueError              (* float() on text that is not a number *)
| EngineError             (* raised inside the recognition engine *)
| RecursionError.

Inductive outcome (A : Type) : Type :=
| Ok (a : A)
| Raise (e : exn).
Arguments Ok {A} a.
Arguments Raise {A} e.

(** ** External calls and their history *)

(** Calls on the Streamlit widgets of [app.py]. *)
Inductive st_call : Type :=
| StWarning (msg : string)
| StInfo (msg : string)
| StError (msg : string)
| StMarkdown (msg : string)
| StProgressBar (initial : Z)      (* [st.progress(v)]: creates the bar *)
| StEmpty                          (* [st.empty()]: the status placeholder *)
| Progress (percent : Z)           (* [progress_bar.progress(v)] *)
| StatusText (msg : string)        (* [status_text.text(msg)] *)
| StDownloadButton (path : string)
| StVideo (path : string).

(** One external call together with the answer it received. *)
Inductive event : Type :=
| EvMakedirs (path : string) (ok : bool)
| EvGcCollect
| EvRun (cmd : string) (ok : bool)
| EvCheckOutput (cmd : string) (out : option string)
| EvExists (path : string) (found : bool)
| EvRemove (path : string) (ok : bool)
| EvPrint (msg : string)
| EvLoadModel (name : string) (ok : bool)
| EvTranscribe (name audio : string) (res : option (list segment))
| EvSrtSave (path : string) (items : list SubRipItem) (ok : bool)
| EvMkdtemp (res : option string)
| EvWriteFile (path : string) (ok : bool)
| EvOpenRead (path : string) (ok : bool)
| EvSt (c : st_call).

Definition history : Type := list event.

(** The world outside the Python process.  Each field answers one kind of
    call from the history of all earlier calls, so a command may succeed
    once and fail later.  The last fields are pure library functions whose
    definition is not part of the repository. *)
Record Env : Type := {
  os_makedirs    : history -> string -> bool;
  subprocess_run : history -> string -> bool;          (* exit status 0 *)
  subprocess_check_output : history -> string -> option string;
  os_path_exists : history -> string -> bool;
  os_remove      : history -> string -> bool;
  whisper_load_model : history -> string -> bool;
  whisper_transcribe : history -> string -> string -> option (list segment);
  pysrt_save     : history -> string -> list SubRipItem -> bool;
  tempfile_mkdtemp : history -> option string;
  write_file     : history -> string -> bool;
  open_read      : history -> string -> bool;
  bytes_decode   : string -> option pystr;             (* [.decode('utf-8')] *)
  float_of_str   : pystr -> option float;              (* [float(s)] *)
  format_1f      : float -> string;                    (* [f"{x / 60:.1f}"] *)
  format_mb      : Z -> string;                        (* [f"{n / 1024 / 1024:.1f}"] *)
  str_of_exn     : exn -> string                       (* [str(e)] *)
}.

(** ** The state and exception monad *)

Definition M (A : Type) : Type := history -> outcome A * history.

Definition ret {A} (a : A) : M A := fun h => (Ok a, h).

Definition raise {A} (e : exn) : M A := fun h => (Raise e, h).

Definition bind {A B} (m : M A) (k : A -> M B) : M B :=
  fun h =>
    match m h with
    | (Ok a, h') => k a h'
    | (Raise e, h') => (Raise e, h')
    end.

(** [try: m  except <any>: handler(e)] *)
Definition try_except {A} (m : M A) (handler : exn -> M A) : M A :=
  fun h =>
    match m h with
    | (Ok a, h') => (Ok a, h')
    | (Raise e, h') => handler e h'
    end.

Declare Scope monad_scope.
Delimit Scope monad_scope with monad.
Notation "x <- c1 ;; c2" := (bind c1 (fun x => c2))
  (at level 61, c1 at next level, right associativity) : monad_scope.
Notation "c1 ;; c2" := (bind c1 (fun _ => c2))
  (at level 61, right associativity) : monad_scope.
Local Open Scope monad_scope.

(** Records an event whose answer is a success flag and raises [e] when the
    flag is false. *)
Definition checked (ev : bool -> event) (ok : bool) (e : exn) : M unit :=
  fun h => (if ok then Ok tt else Raise e, h ++ [ev ok])%list.

Definition emit (ev : event) : M unit := fun h => (Ok tt, h ++ [ev])%list.

Section Primitives.

Variable E : Env.

(** [os.makedirs(path, exist_ok=True)] *)
Definition makedirs (path : string) : M unit :=
  fun h => checked (EvMakedirs path) (os_makedirs E h path) OSError h.

Definition gc_collect : M unit := emit EvGcCollect.

(** [subprocess.run(cmd, shell=True, check=True)] *)
Definition run (cmd : string) : M unit :=
  fun h => checked (EvRun cmd) (subprocess_run E h cmd) CalledProcessError h.

(** [subprocess.check_output(cmd, shell=True)] *)
Definition check_output (cmd : string) : M string :=
  fun h =>
    let out := subprocess_check_output E h cmd in
    (match out with Some b => Ok b | None => Raise CalledProcessError end,
     h ++ [EvCheckOutput cmd out])%list.

(** [bytes.decode('utf-8')] *)
Definition decode (b : string) : M pystr :=
  match bytes_decode E b with
  | Some s => ret s
  | None => raise UnicodeDecodeError
  end.

(** [float(s)] *)
Definition float_ (s : pystr) : M float :=
  match float_of_str E s with
  | Some x => ret x
  | None => raise ValueError
  end.

(** [os.path.exists(path)] *)
Definition path_exists (path : string) : M bool :=
  fun h =>
    let found := os_path_exists E h path in
    (Ok found, h ++ [EvExists path found])%list.

(** [os.remove(path)] *)
Definition remove (path : string) : M unit :=
  fun h => checked (EvRemove path) (os_remove E h path) OSError h.

Definition print (msg : string) : M unit := emit (EvPrint msg).

(** [whisper.load_model(name)]; the model object is identified with its
    name. *)
Definition load_model (name : string) : M string :=
  fun h =>
    match checked (EvLoadModel name) (whisper_load_model E h name) EngineError h with
    | (Ok _, h') => (Ok name, h')
    | (Raise e, h') => (Raise e, h')
    end.

(** [model.transcribe(audio_path)["segments"]] *)
Definition transcribe (model audio_path : string) : M (list segment) :=
  fun h =>
    let res := whisper_transcribe E h model audio_path in
    (match res with Some segs => Ok segs | None => Raise EngineError end,
     h ++ [EvTranscribe model audio_path res])%list.

(** [subs.save(path, encoding='utf-8')] *)
Definition srt_save (subs : list SubRipItem) (path : string) : M unit :=
  fun h => checked (fun ok => EvSrtSave path subs ok) (pysrt_save E h path subs) OSError h.

(** [tempfile.mkdtemp()] *)
Definition mkdtemp : M string :=
  fun h =>
    let res := tempfile_mkdtemp E h in
    (match res with Some d => Ok d | None => Raise OSError end,
     h ++ [EvMkdtemp res])%list.

(** [with open(path, "wb") as f: f.write(...)] *)
Definition save_upload (path : string) : M unit :=
  fun h => checked (EvWriteFile path) (write_file E h path) OSError h.

(** [open(path, "rb")] *)
Definition open_rb (path : string) : M unit :=
  fun h => checked (EvOpenRead path) (open_read E h path) OSError h.

Definition st (c : st_call) : M unit := emit (EvSt c).

End Primitives.

(** ** karaoke_engine.py *)

Section KaraokeEngine.

Variable E : Env.

(** [extract_audio(video_path, output_path)] *)
Definition extract_audio_cmd (video_path output_path : string) : string :=
  "ffmpeg -i " ++ quoted video_path ++ " -q:a 0 -map a " ++ quoted output_path ++ " -y".

Definition extract_audio (video_path output_path : string) : M string :=
  run E (extract_audio_cmd video_path output_path) ;;
  ret output_path.

(** The commands built by [separate_vocals]. *)
Definition downsample_cmd (audio_path temp_audio : string) : string :=
  "ffmpeg -i " ++ quoted audio_path ++ " -ar 16000 -ac 1 " ++ quoted temp_audio ++ " -y".

Definition spleeter_mwf_cmd (model output_dir temp_audio : string) : string :=
  "spleeter separate -p " ++ model ++ " --mwf -o " ++ quoted output_dir
    ++ " " ++ quoted temp_audio.

Definition spleeter_cmd (model output_dir audio_path : string) : string :=
  "spleeter separate -p " ++ model ++ " -o " ++ quoted output_dir
    ++ " " ++ quoted audio_path.

Definition mix_cmd (drums_path bass_path other_path instrumental_path : string) : string :=
  "ffmpeg -i " ++ quoted drums_path ++ " -i " ++ quoted bass_path
    ++ " -i " ++ quoted other_path
    ++ " -filter_complex " ++ quoted "[0:a][1:a][2:a]amix=inputs=3:dropout_transition=0"
    ++ " " ++ quoted instrumental_path ++ " -y".

Definition fallback_message : string :=
  "4stems model failed due to memory constraints, falling back to 2stems...".

(** [separate_vocals(audio_path, output_dir, model)].  The function calls
    itself in its exception handler; [fuel] bounds the depth of the Python
    call stack, and an exhausted stack is Python's [RecursionError]. *)
Fixpoint separate_vocals_rec (fuel : nat)
         (audio_path output_dir model : string) : M string :=
  match fuel with
  | O => raise RecursionError
  | S fuel' =>
      makedirs E output_dir ;;
      gc_collect ;;
      cmd <- (if contains "4stems" model then
                let temp_audio := join output_dir "downsampled_audio.wav" in
                run E (downsample_cmd audio_path temp_audio) ;;
                ret (spleeter_mwf_cmd model output_dir temp_audio)
              else
                ret (spleeter_cmd model output_dir audio_path)) ;;
      fun h =>
        match run E cmd h with
        | (Raise CalledProcessError, h1) =>
            (* except subprocess.CalledProcessError: *)
            if contains "4stems" model then
              (print fallback_message ;;
               separate_vocals_rec fuel' audio_path output_dir "spleeter:2stems") h1
            else
              (Raise CalledProcessError, h1)
        | (Raise e, h1) => (Raise e, h1)
        | (Ok _, h1) =>
            let base_name := splitext_root (basename audio_path) in
            (is4 <- (if contains "4stems" model
                     then path_exists E (join3 output_dir base_name "other.wav")
                     else ret false) ;;
             if is4 then
               let drums_path := join3 output_dir base_name "drums.wav" in
               let bass_path := join3 output_dir base_name "bass.wav" in
               let other_path := join3 output_dir base_name "other.wav" in
               let instrumental_path := join3 output_dir base_name "accompaniment.wav" in
               run E (mix_cmd drums_path bass_path other_path instrumental_path) ;;
               ret instrumental_path
             else
               ret (join3 output_dir base_name "accompaniment.wav")) h1
        end
  end.

(** CPython's default recursion limit. *)
Definition recursion_limit : nat := 1000.

Definition separate_vocals (audio_path output_dir model : string) : M string :=
  separate_vocals_rec recursion_limit audio_path output_dir model.

(** [os.path.dirname(p)] *)
Fixpoint rstrip_sep_rev (l : list ascii) : list ascii :=
  match l with
  | c :: l' => if Ascii.eqb c "/" then rstrip_sep_rev l' else l
  | [] => []
  end.

Definition dirname (p : string) : string :=
  let head := substring 0 (Z.to_nat (rfind "/" p + 1)) p in
  let chars := list_ascii_of_string head in
  if forallb (fun c => Ascii.eqb c "/") chars then head
  else string_of_list_ascii (rev (rstrip_sep_rev (rev chars))).

Definition ffprobe_cmd (path : string) : string :=
  "ffprobe -v error -show_entries format=duration -of default=noprint_wrappers=1:nokey=1 "
    ++ quoted path.

(** The [try] block of [transcribe_audio] (lines 77 to 87) with its bare
    [except: pass].  It assigns [temp_audio] before the downsampling
    command runs and [audio_path] after it, so a failing command leaves
    [temp_audio] set and [audio_path] unchanged.  The result is the pair
    of both variables after the block. *)
Definition choose_transcription_input (audio_path : string) (duration_output : pystr)
  : M (option string * string) :=
  try_except
    (duration <- float_ E duration_output ;;
     if (180 <? duration)%float then
       let temp_dir := dirname audio_path in
       let temp_audio := join temp_dir "downsampled_for_whisper.wav" in
       try_except
         (run E (downsample_cmd audio_path temp_audio) ;;
          ret (Some temp_audio, temp_audio))
         (fun _ => ret (Some temp_audio, audio_path))
     else ret (None, audio_path))
    (fun _ => ret (None, audio_path)).

(** Truth value of a Python string. *)
Definition truthy_str (s : string) : bool := negb (String.eqb s EmptyString).

(** [transcribe_audio(audio_path, model_name)] *)
Definition transcribe_audio (audio_path model_name : string) : M (list segment) :=
  gc_collect ;;
  raw <- check_output E (ffprobe_cmd audio_path) ;;
  decoded <- decode E raw ;;
  let duration_output := strip decoded in
  vars <- choose_transcription_input audio_path duration_output ;;
  let temp_audio := fst vars in
  let audio_path := snd vars in
  model <- load_model E model_name ;;
  segments <- transcribe E model audio_path ;;
  (match temp_audio with
   | Some t =>
       if truthy_str t then
         found <- path_exists E t ;;
         if found then try_except (remove E t) (fun _ => ret tt) else ret tt
       else ret tt
   | None => ret tt
   end) ;;
  ret segments.

(** The body of the [for] loop of [create_subtitles]: the item appended
    for the segment at position [i]. *)
Definition subtitle_item (i : nat) (seg : segment) : SubRipItem :=
  {| item_index := Z.of_nat i + 1;
     item_start := Timedelta (seg_start seg);
     item_end   := Timedelta (seg_end seg);
     item_text  := strip (seg_text seg) |}.

(** [for i, segment in enumerate(segments): ... subs.append(item)] *)
Fixpoint subtitle_loop (i : nat) (segments : list segment) (subs : list SubRipItem)
  : list SubRipItem :=
  match segments with
  | [] => subs
  | seg :: rest => subtitle_loop (S i) rest (subs ++ [subtitle_item i seg])%list
  end.

(** [create_subtitles(segments, output_path)] *)
Definition create_subtitles (segments : list segment) (output_path : string) : M string :=
  let subs := subtitle_loop 0 segments [] in
  srt_save E subs output_path ;;
  ret output_path.

(** [str(n)] for an integer. *)
Definition str_of_int (n : Z) : string :=
  DecimalString.NilZero.string_of_int (Z.to_int n).

Definition final_video_cmd (video_path instrumental_path subtitle_path output_path : string)
           (subtitle_font_size : Z) : string :=
  let subtitle_path_escaped :=
    replace_char ":" "\:" (replace_char "\" "\\" subtitle_path) in
  "ffmpeg -i " ++ quoted video_path ++ " -i " ++ quoted instrumental_path ++ " "
    ++ "-vf " ++ quoted ("subtitles=" ++ subtitle_path_escaped
                         ++ ":force_style='FontSize=" ++ str_of_int subtitle_font_size ++ "'")
    ++ " "
    ++ "-map 0:v -map 1:a -c:v libx264 -preset faster -crf 28 -c:a aac -b:a 128k "
    ++ quoted output_path ++ " -y".

(** [create_final_video(video_path, instrumental_path, subtitle_path,
    output_path, subtitle_font_size)] *)
Definition create_final_video (video_path instrumental_path subtitle_path output_path : string)
           (subtitle_font_size : Z) : M string :=
  run E (final_video_cmd video_path instrumental_path subtitle_path output_path
                         subtitle_font_size) ;;
  ret output_path.

End KaraokeEngine.

(** ** app.py: the branch run by the button "Generate Karaoke Version" *)

(** The values of the settings widgets. *)
Record settings : Type := {
  whisper_model      : string;     (* "tiny" or "base" *)
  separation_model   : string;     (* "spleeter:2stems" or "spleeter:4stems" *)
  subtitle_font_size : Z;
  keep_temp_files    : bool
}.

Section App.

Variable E : Env.

(** [get_video_duration(video_path)]: the whole body is inside the [try]. *)
Definition get_video_duration (video_path : string) : M (option float) :=
  try_except
    (raw <- check_output E (ffprobe_cmd video_path) ;;
     decoded <- decode E raw ;;
     x <- float_ E (strip decoded) ;;
     ret (Some x))
    (fun _ => ret None).

(** Truth value of [duration], which is a float or [None]. *)
Definition truthy_duration (duration : option float) : bool :=
  match duration with
  | Some x => negb (x =? 0)%float
  | None => false
  end.

(** [duration and duration > limit] *)
Definition duration_exceeds (duration : option float) (limit : float) : bool :=
  truthy_duration duration &&
  match duration with
  | Some x => (limit <? x)%float
  | None => false
  end.

Definition minutes (duration : option float) : string :=
  match duration with
  | Some x => format_1f E (x / 60)%float
  | None => EmptyString
  end.

Definition remediation_hints : string :=
  "
                1. Use a shorter video (less than 2 minutes)
                2. Select the 2stems model instead of 4stems
                3. Use the 'tiny' transcription model
                4. Reduce the video resolution before uploading
                ".

(** The texts shown by the widgets. *)
Definition saving_status : string := "Saving uploaded file...".

Definition extracting_status : string := "Extracting audio from video...".

Definition separating_status (model : string) : string :=
  "Separating vocals using " ++ model ++ " (this may take several minutes)...".

Definition transcribing_status (actual_model : string) : string :=
  "Transcribing vocals using " ++ actual_model ++ " model...".

Definition subtitles_status : string := "Creating subtitle file...".

Definition composing_status : string := "Creating final karaoke video...".

Definition done_status : string := "✅ Karaoke video generated successfully!".

Definition large_file_warning (size : Z) : string :=
  "File size is " ++ format_mb E size ++ "MB. Large files may cause memory issues.".

Definition long_video_warning (duration : option float) : string :=
  "Video is " ++ minutes duration
    ++ " minutes long. Processing may fail due to memory constraints.".

Definition four_stem_warning : string :=
  "The 4stems model failed due to memory limits. Falling back to 2stems...".

Definition tiny_model_info (duration : option float) : string :=
  "Video is " ++ minutes duration
    ++ " minutes long. Using 'tiny' model for faster processing.".

Definition error_notice (e : exn) : string :=
  "An error occurred: " ++ str_of_exn E e.

Definition solutions_notice : string := "Try these solutions:".

(** Lines 122 to 133: the separation stage with the fallback of the
    orchestrator. *)
Definition separation_stage (cfg : settings) (audio_path temp_dir : string) : M string :=
  st (StatusText (separating_status (separation_model cfg))) ;;
  try_except
    (instrumental_path <- separate_vocals E audio_path temp_dir (separation_model cfg) ;;
     st (Progress 50) ;;
     ret instrumental_path)
    (fun e =>
       match e with
       | CalledProcessError =>
           if contains "4stems" (separation_model cfg) then
             st (StWarning four_stem_warning) ;;
             instrumental_path <- separate_vocals E audio_path temp_dir "spleeter:2stems" ;;
             st (Progress 50) ;;
             ret instrumental_path
           else raise e
       | _ => raise e
       end).

(** Lines 135 to 144: the transcription stage with the model override for
    long inputs. *)
Definition transcription_stage (cfg : settings) (duration : option float)
           (audio_path : string) : M (list segment) :=
  actual_model <- (if duration_exceeds duration 180
                      && negb (String.eqb (whisper_model cfg) "tiny")
                   then
                     st (StInfo (tiny_model_info duration)) ;;
                     ret "tiny"
                   else ret (whisper_model cfg)) ;;
  st (StatusText (transcribing_status actual_model)) ;;
  segments <- transcribe_audio E audio_path actual_model ;;
  st (Progress 70) ;;
  ret segments.

(** Lines 103 to 177: the body of the outer [try]. *)
Definition pipeline (cfg : settings) (temp_dir output_dir : string) : M unit :=
  st (StatusText saving_status) ;;
  let input_path := join temp_dir "input_video.mp4" in
  save_upload E input_path ;;
  st (Progress 10) ;;
  duration <- get_video_duration input_path ;;
  (if duration_exceeds duration 300 then
     st (StWarning (long_video_warning duration))
   else ret tt) ;;
  st (StatusText extracting_status) ;;
  let audio_path := join temp_dir "original_audio.wav" in
  extract_audio E input_path audio_path ;;
  st (Progress 20) ;;
  instrumental_path <- separation_stage cfg audio_path temp_dir ;;
  segments <- transcription_stage cfg duration audio_path ;;
  st (StatusText subtitles_status) ;;
  let subtitle_path := join temp_dir "lyrics.srt" in
  create_subtitles E segments subtitle_path ;;
  st (Progress 80) ;;
  st (StatusText composing_status) ;;
  let output_path := join output_dir "karaoke_output.mp4" in
  create_final_video E input_path instrumental_path subtitle_path output_path
                     (subtitle_font_size cfg) ;;
  st (Progress 100) ;;
  st (StatusText done_status) ;;
  open_rb E output_path ;;
  st (StDownloadButton output_path) ;;
  st (StVideo output_path).

(** Lines 88 to 187: what the button runs for an upload of [size] bytes. *)
Definition generate (cfg : settings) (size : Z) : M unit :=
  (if (100 * 1024 * 1024 <? size)%Z then
     st (StWarning (large_file_warning size))
   else ret tt) ;;
  temp_dir <- mkdtemp E ;;
  let output_dir := join temp_dir "output" in
  makedirs E output_dir ;;
  st (StProgressBar 0) ;;
  st StEmpty ;;
  try_except
    (pipeline cfg temp_dir output_dir)
    (fun e =>
       st (StError (error_notice e)) ;;
       st (StError solutions_notice) ;;
       st (StMarkdown remediation_hints)).

End App.

(** ** Concrete worlds

    Oracles used to run the embedding on explicit inputs. *)

Module Worlds.

(** Text of an ASCII literal. *)
Definition text (s : string) : pystr := map N_of_ascii (list_ascii_of_string s).

Fixpoint pystr_eqb (a b : pystr) : bool :=
  match a, b with
  | [], [] => true
  | x :: a', y :: b' => (x =? y)%N && pystr_eqb a' b'
  | _, _ => false
  end.

(** [float(s)] on the few outputs the probes of these worlds print. *)
Definition parse_seconds (s : pystr) : option float :=
  if pystr_eqb s (text "60.000000") then Some 60%float
  else if pystr_eqb s (text "240.000000") then Some 240%float
  else if pystr_eqb s (text "400.000000") then Some 400%float
  else None.

(** A world in which every command succeeds, no queried path exists, the
    probe prints 60 seconds and the recognition engine hears nothing. *)
Definition calm : Env := {|
  os_makedirs    := fun _ _ => true;
  subprocess_run := fun _ _ => true;
  subprocess_check_output := fun _ _ => Some "60.000000
";
  os_path_exists := fun _ _ => false;
  os_remove      := fun _ _ => true;
  whisper_load_model := fun _ _ => true;
  whisper_transcribe := fun _ _ _ => Some [];
  pysrt_save     := fun _ _ _ => true;
  tempfile_mkdtemp := fun _ => Some "/tmp/tmpk3y";
  write_file     := fun _ _ => true;
  open_read      := fun _ _ => true;
  bytes_decode   := fun b => Some (text b);
  float_of_str   := parse_seconds;
  format_1f      := fun _ => "n.n";
  format_mb      := fun _ => "n.n";
  str_of_exn     := fun _ => "error"
|}.

(** [calm] with other answers to [subprocess.run]. *)
Definition with_run (f : history -> string -> bool) (W : Env) : Env := {|
  os_makedirs    := os_makedirs W;
  subprocess_run := f;
  subprocess_check_output := subprocess_check_output W;
  os_path_exists := os_path_exists W;
  os_remove      := os_remove W;
  whisper_load_model := whisper_load_model W;
  whisper_transcribe := whisper_transcribe W;
  pysrt_save     := pysrt_save W;
  tempfile_mkdtemp := tempfile_mkdtemp W;
  write_file     := write_file W;
  open_read      := open_read W;
  bytes_decode   := bytes_decode W;
  float_of_str   := float_of_str W;
  format_1f      := format_1f W;
  format_mb      := format_mb W;
  str_of_exn     := str_of_exn W
|}.

(** Other answers of the probe. *)
Definition with_probe (f : history -> string -> option string) (W : Env) : Env := {|
  os_makedirs    := os_makedirs W;
  subprocess_run := subprocess_run W;
  subprocess_check_output := f;
  os_path_exists := os_path_exists W;
  os_remove      := os_remove W;
  whisper_load_model := whisper_load_model W;
  whisper_transcribe := whisper_transcribe W;
  pysrt_save     := pysrt_save W;
  tempfile_mkdtemp := tempfile_mkdtemp W;
  write_file     := write_file W;
  open_read      := open_read W;
  bytes_decode   := bytes_decode W;
  float_of_str   := float_of_str W;
  format_1f      := format_1f W;
  format_mb      := format_mb W;
  str_of_exn     := str_of_exn W
|}.

(** Other answers of the recognition engine to [model.transcribe]. *)
Definition with_transcribe (f : history -> string -> string -> option (list segment))
           (W : Env) : Env := {|
  os_makedirs    := os_makedirs W;
  subprocess_run := subprocess_run W;
  subprocess_check_output := subprocess_check_output W;
  os_path_exists := os_path_exists W;
  os_remove      := os_remove W;
  whisper_load_model := whisper_load_model W;
  whisper_transcribe := f;
  pysrt_save     := pysrt_save W;
  tempfile_mkdtemp := tempfile_mkdtemp W;
  write_file     := write_file W;
  open_read      := open_read W;
  bytes_decode   := bytes_decode W;
  float_of_str   := float_of_str W;
  format_1f      := format_1f W;
  format_mb      := format_mb W;
  str_of_exn     := str_of_exn W
|}.

(** Other answers to [os.path.exists] and [os.remove]. *)
Definition with_files (ex rm : history -> string -> bool) (W : Env) : Env := {|
  os_makedirs    := os_makedirs W;
  subprocess_run := subprocess_run W;
  subprocess_check_output := subprocess_check_output W;
  os_path_exists := ex;
  os_remove      := rm;
  whisper_load_model := whisper_load_model W;
  whisper_transcribe := whisper_transcribe W;
  pysrt_save     := pysrt_save W;
  tempfile_mkdtemp := tempfile_mkdtemp W;
  write_file     := write_file W;
  open_read      := open_read W;
  bytes_decode   := bytes_decode W;
  float_of_str   := float_of_str W;
  format_1f      := format_1f W;
  format_mb      := format_mb W;
  str_of_exn     := str_of_exn W
|}.

(** The separation engine always exits with an error. *)
Definition spleeter_down (_ : history) (cmd : string) : bool :=
  negb (prefix "spleeter" cmd).

(** The separation engine fails for the four-stem model only. *)
Definition spleeter_4stems_down (_ : history) (cmd : string) : bool :=
  negb (prefix "spleeter separate -p spleeter:4stems" cmd).

(** Every subprocess exits with an error. *)
Definition all_down (_ : history) (_ : string) : bool := false.

(** Only the mix of the stems fails. *)
Definition mix_down (_ : history) (cmd : string) : bool :=
  negb (contains "amix" cmd).

End Worlds.

(** * Vocabulary of the claims *)

Local Open Scope list_scope.

(** The two values of the separation setting. *)
Definition TwoStem : string := "spleeter:2stems".

Definition FourStem : string := "spleeter:4stems".

(** What every call of [separate_vocals] does first, when the directory can
    be created. *)
Definition setup_events (output_dir : string) : history :=
  [EvMakedirs output_dir true; EvGcCollect].

(** The downsampled copy given to the four-stem model. *)
Definition four_stem_input (output_dir : string) : string :=
  join output_dir "downsampled_audio.wav".

(** The history once the downsampling of a FourStem call has succeeded. *)
Definition downsampled (audio_path output_dir : string) (h : history) : history :=
  h ++ setup_events output_dir
    ++ [EvRun (downsample_cmd audio_path (four_stem_input output_dir)) true].

(** The engine command of a FourStem call. *)
Definition four_stem_cmd (output_dir : string) : string :=
  spleeter_mwf_cmd FourStem output_dir (four_stem_input output_dir).

(** The history at which the handler of a failed FourStem run calls
    [separate_vocals] again. *)
Definition four_stem_failed (audio_path output_dir : string) (h : history) : history :=
  downsampled audio_path output_dir h
    ++ [EvRun (four_stem_cmd output_dir) false; EvPrint fallback_message].

(** The path returned for the two-stem layout. *)
Definition accompaniment_path (audio_path output_dir : string) : string :=
  join3 output_dir (splitext_root (basename audio_path)) "accompaniment.wav".

Definition other_stem_path (audio_path output_dir : string) : string :=
  join3 output_dir (splitext_root (basename audio_path)) "other.wav".

(** An environment whose answers to the calls of [separate_vocals] do not
    depend on what happened before. *)
Definition history_blind (E : Env) : Prop :=
  (forall h h' p, os_makedirs E h p = os_makedirs E h' p) /\
  (forall h h' c, subprocess_run E h c = subprocess_run E h' c) /\
  (forall h h' p, os_path_exists E h p = os_path_exists E h' p).


(** The values passed to [progress_bar.progress], in order. *)
Fixpoint progress_updates (h : history) : list Z :=
  match h with
  | [] => []
  | EvSt (Progress p) :: rest => p :: progress_updates rest
  | _ :: rest => progress_updates rest
  end.

Definition is_remove (ev : event) : bool :=
  match ev with
  | EvRemove _ _ => true
  | _ => false
  end.

(** The scratch file of [transcribe_audio]. *)
Definition scratch_path (audio_path : string) : string :=
  join (dirname audio_path) "downsampled_for_whisper.wav".

(** The history of [transcribe_audio] once the probe has printed [raw]. *)
Definition probed (audio_path raw : string) (h : history) : history :=
  h ++ [EvGcCollect; EvCheckOutput (ffprobe_cmd audio_path) (Some raw)].

(** ... once the scratch file has been written, and the model loaded. *)
Definition scratch_created (audio_path raw name : string) (h : history) : history :=
  probed audio_path raw h
    ++ [EvRun (downsample_cmd audio_path (scratch_path audio_path)) true;
        EvLoadModel name true].


(** Text without white space at either end. *)
Definition trimmed (s : pystr) : Prop :=
  (forall c rest, s = c :: rest -> is_space c = false)
  /\ (forall c front, s = front ++ [c] -> is_space c = false).

(** The fixed milestones of the progress bar. *)
Definition milestones : list Z := [10; 20; 50; 70; 80; 100]%Z.

(** Whether the final composition completed: the command run right after
    the status line that announces the composition exited with status 0. *)
Fixpoint composition_completed_from (announced : bool) (h : history) : bool :=
  match h with
  | [] => false
  | EvSt (StatusText msg) :: rest =>
      composition_completed_from (String.eqb msg composing_status) rest
  | EvRun _ ok :: rest =>
      if announced then ok else composition_completed_from false rest
  | _ :: rest => composition_completed_from announced rest
  end.

Definition composition_completed (h : history) : bool :=
  composition_completed_from false h.

(** Events that are not calls on the widgets. *)
Definition not_widget (ev : event) : bool :=
  match ev with
  | EvSt _ => false
  | _ => true
  end.

Definition quiet (h : history) : Prop := forallb not_widget h = true.

(** A run of events before the composition is announced: it makes the
    progress updates [ps] and leaves the composition unannounced. *)
Definition plain (seg : history) (ps : list Z) : Prop :=
  progress_updates seg = ps
  /\ forall rest, composition_completed_from false (seg ++ rest)
                  = composition_completed_from false rest.

(** What a run of [generate] can show: the progress updates made and
    whether the composition completed. *)
Definition reachable_displays : list (list Z * bool) :=
  [([], false); ([10], false); ([10; 20], false); ([10; 20; 50], false);
   ([10; 20; 50; 70], false); ([10; 20; 50; 70; 80], false);
   ([10; 20; 50; 70; 80; 100], true)]%Z.

(** ** Vocabulary of the further properties *)

(** Runs of the separation engine. *)
Definition is_engine_run (ev : event) : bool :=
  match ev with
  | EvRun cmd _ => prefix "spleeter separate" cmd
  | _ => false
  end.

(** Messages printed on the console. *)
Definition is_print (ev : event) : bool :=
  match ev with
  | EvPrint _ => true
  | _ => false
  end.

(** The mix command of a FourStem call. *)
Definition four_stem_mix_cmd (audio_path output_dir : string) : string :=
  let base_name := splitext_root (basename audio_path) in
  mix_cmd (join3 output_dir base_name "drums.wav")
          (join3 output_dir base_name "bass.wav")
          (join3 output_dir base_name "other.wav")
          (join3 output_dir base_name "accompaniment.wav").

(** The history of a FourStem call once the engine has run and the stems
    have been found. *)
Definition stems_found (audio_path output_dir : string) (h : history) : history :=
  downsampled audio_path output_dir h
    ++ [EvRun (four_stem_cmd output_dir) true;
        EvExists (other_stem_path audio_path output_dir) true].

(** The last call of a history. *)
Fixpoint last_event (h : history) : option event :=
  match h with
  | [] => None
  | [ev] => Some ev
  | _ :: rest => last_event rest
  end.

(** [subtitle_path.replace('\\', '\\\\').replace(':', '\\:')] *)
Definition escape_subtitle_path (subtitle_path : string) : string :=
  replace_char ":" "\:" (replace_char "\" "\\" subtitle_path).

(** Reads an escaped path back: a backslash stands for the character that
    follows it. *)
Fixpoint unescape (s : string) : string :=
  match s with
  | EmptyString => EmptyString
  | String c rest =>
      if Ascii.eqb c "\" then
        match rest with
        | EmptyString => String c EmptyString
        | String c' rest' => String c' (unescape rest')
        end
      else String c (unescape rest)
  end.

(** Every colon of [s] follows a backslash that escapes it. *)
Fixpoint colons_escaped (s : string) : bool :=
  match s with
  | EmptyString => true
  | String c rest =>
      if Ascii.eqb c "\" then
        match rest with
        | EmptyString => true
        | String _ rest' => colons_escaped rest'
        end
      else negb (Ascii.eqb c ":") && colons_escaped rest
  end.

Definition is_special (c : ascii) : bool := Ascii.eqb c "\" || Ascii.eqb c ":".

(** [st.error] calls. *)
Definition is_error_notice (ev : event) : bool :=
  match ev with
  | EvSt (StError _) => true
  | _ => false
  end.

(** The download button and the preview of the result. *)
Definition is_result (ev : event) : bool :=
  match ev with
  | EvSt (StDownloadButton _) => true
  | EvSt (StVideo _) => true
  | _ => false
  end.

(** The creation of the progress bar. *)
Definition is_bar (ev : event) : bool :=
  match ev with
  | EvSt (StProgressBar _) => true
  | _ => false
  end.

(** The paths given to [os.remove], in order. *)
Fixpoint removed (h : history) : list string :=
  match h with
  | [] => []
  | EvRemove path _ :: rest => path :: removed rest
  | _ :: rest => removed rest
  end.

(** Whether every engine is called only once the stages before it have
    reported their milestone: the separation engine after 20, the
    recognition engine after 50, the subtitle writer after 70, the download
    button after 100.  [reached] is the last progress value reported. *)
Fixpoint stages_in_order (reached : Z) (h : history) : bool :=
  match h with
  | [] => true
  | EvSt (Progress p) :: rest => stages_in_order p rest
  | EvRun cmd ok :: rest =>
      (if is_engine_run (EvRun cmd ok) then (20 <=? reached)%Z else true)
      && stages_in_order reached rest
  | EvLoadModel _ _ :: rest => (50 <=? reached)%Z && stages_in_order reached rest
  | EvTranscribe _ _ _ :: rest => (50 <=? reached)%Z && stages_in_order reached rest
  | EvSrtSave _ _ _ :: rest => (70 <=? reached)%Z && stages_in_order reached rest
  | EvSt (StDownloadButton _) :: rest =>
      (100 <=? reached)%Z && stages_in_order reached rest
  | _ :: rest => stages_in_order reached rest
  end.

(** A run of calls made by one engine function: no widget is touched, the
    files in [rm] are removed, and the order of the stages is respected
    when the progress has reached [floor]. *)
Definition backstage (floor : Z) (rm : list string) (seg : history) : Prop :=
  quiet seg
  /\ removed seg = rm
  /\ forall reached rest,
       (floor <=? reached)%Z = true ->
       stages_in_order reached (seg ++ rest) = stages_in_order reached rest.

(** A run of calls made by one stage of the orchestrator: it reports the
    progress values [ps], removes the files [rm], shows neither an error
    nor the result, creates no progress bar, and takes the order of the
    stages from the milestone [from] to the milestone [to]. *)
Definition onstage (from to : Z) (ps : list Z) (rm : list string) (seg : history) : Prop :=
  progress_updates seg = ps
  /\ removed seg = rm
  /\ (forall rest, existsb is_error_notice (seg ++ rest) = existsb is_error_notice rest)
  /\ (forall rest, existsb is_result (seg ++ rest) = existsb is_result rest)
  /\ (forall rest, existsb is_bar (seg ++ rest) = existsb is_bar rest)
  /\ (forall rest, stages_in_order from (seg ++ rest) = stages_in_order to rest).

(** The milestone a stage leaves behind: its own when it returns, the one
    before it when it raises. *)
Definition milestone_after {A} (r : outcome A) (before own : Z) : Z :=
  match r with Ok _ => own | Raise _ => before end.

Definition progress_after {A} (r : outcome A) (own : Z) : list Z :=
  match r with Ok _ => [own] | Raise _ => [] end.

(** What a run of [generate] can leave on the page: the progress updates,
    whether an error is shown, whether the result is offered, whether the
    progress bar exists. *)
Definition reachable_pages : list (list Z * bool * bool * bool) :=
  [([], false, false, false);
   ([], true, false, true); ([10], true, false, true); ([10; 20], true, false, true);
   ([10; 20; 50], true, false, true); ([10; 20; 50; 70], true, false, true);
   ([10; 20; 50; 70; 80], true, false, true);
   ([10; 20; 50; 70; 80; 100], true, false, true);
   ([10; 20; 50; 70; 80; 100], false, true, true)]%Z.


Module Worlds2.
Import Worlds.

(** The separation engine fails for the two-stem model only. *)
Definition spleeter_2stems_down (_ : history) (cmd : string) : bool :=
  negb (prefix "spleeter separate -p spleeter:2stems" cmd).

(** Every queried path exists and can be removed. *)
Definition present (_ : history) (_ : string) : bool := true.

Definition is_two_stem_run (ev : event) : bool :=
  match ev with
  | EvRun cmd _ => prefix "spleeter separate -p spleeter:2stems" cmd
  | _ => false
  end.

Definition sample_audio : string := "/tmp/tmpk3y/original_audio.wav".
Definition sample_dir : string := "/tmp/tmpk3y".

(** The probe prints 240 seconds and every queried file exists. *)
Definition long_audio_world : Env :=
  with_files present present (with_probe (fun _ _ => Some "240.000000") calm).

(** Settings of a run: the defaults of the form. *)
Definition sample_settings : settings :=
  {| whisper_model := "tiny"; separation_model := TwoStem;
     subtitle_font_size := 24; keep_temp_files := false |}.

(** A segment that starts before zero and ends before it starts. *)
Definition backwards_segment : segment :=
  {| seg_start := (-1.5)%float; seg_end := (-2)%float; seg_text := text " la la " |}.

End Worlds2.

Module Worlds3.
Import Worlds Worlds2.

(** The probe prints text that is not a number. *)
Definition unreadable_probe : Env := with_probe (fun _ _ => Some "N/A") calm.

(** The probe prints 240 seconds, the downsampling for the recognition
    engine fails, and every queried file exists. *)
Definition whisper_downsample_down : Env :=
  with_run (fun _ cmd => negb (contains "downsampled_for_whisper.wav" cmd)) long_audio_world.

(** The probe prints 60 seconds. *)
Definition short_audio_world : Env := with_probe (fun _ _ => Some "60.000000") calm.

End Worlds3.

(** * Properties *)

Ltac run_prims :=
  unfold bind, try_except, makedirs, run, check_output, decode, float_, path_exists,
    remove, print, gc_collect, load_model, transcribe, srt_save, mkdtemp, save_upload,
    open_rb, st, checked, emit, ret, raise.

Ltac flat_history := repeat rewrite <- app_assoc; cbn [app].

Section SeparateVocals.

Variable E : Env.

Lemma two_stems_literal : contains "4stems" TwoStem = false.
Proof. reflexivity. Qed.

Lemma four_stems_literal : contains "4stems" FourStem = true.
Proof. reflexivity. Qed.

(** A model without "4stems" in its name never reaches the recursive
    call. *)
Lemma separate_vocals_rec_flat n a d m h :
  contains "4stems" m = false ->
  separate_vocals_rec E (S n) a d m h = separate_vocals_rec E 1 a d m h.
Proof.
  intros Hc. cbn [separate_vocals_rec]. rewrite Hc. reflexivity.
Qed.

Lemma separate_vocals_rec_congr k1 k2 a d m h :
  (forall h', separate_vocals_rec E k1 a d "spleeter:2stems" h'
              = separate_vocals_rec E k2 a d "spleeter:2stems" h') ->
  separate_vocals_rec E (S k1) a d m h = separate_vocals_rec E (S k2) a d m h.
Proof.
  intros Hrec. cbn [separate_vocals_rec]. unfold bind.
  destruct (makedirs E d h) as [[[]|e] h1]; [|reflexivity].
  destruct (gc_collect h1) as [[[]|e] h2]; [|reflexivity].
  match goal with |- context [if ?c then _ else _] => destruct c end.
  - destruct (run E _ h2) as [[[]|e] h3]; [|reflexivity]. unfold ret.
    destruct (run E _ h3) as [[[]|[]] h4]; try reflexivity.
    unfold print, emit. apply Hrec.
  - unfold ret. destruct (run E _ h2) as [[[]|[]] h4]; reflexivity.
Qed.

(** Two stack frames are all the function ever uses. *)
Lemma separate_vocals_rec_depth n a d m h :
  separate_vocals_rec E (S (S n)) a d m h = separate_vocals_rec E 2 a d m h.
Proof.
  apply separate_vocals_rec_congr. intros h'.
  apply separate_vocals_rec_flat. reflexivity.
Qed.

Lemma separate_vocals_depth a d m h :
  separate_vocals E a d m h = separate_vocals_rec E 2 a d m h.
Proof.
  unfold separate_vocals.
  change recursion_limit with (S (S 998)). apply separate_vocals_rec_depth.
Qed.

Lemma separate_vocals_flat a d m h :
  contains "4stems" m = false ->
  separate_vocals E a d m h = separate_vocals_rec E 1 a d m h.
Proof.
  intros Hc. rewrite separate_vocals_depth. now apply separate_vocals_rec_flat.
Qed.

(** The recursion limit is never hit: the call returns a path or raises
    an exception of the world. *)
Lemma separate_vocals_total a d m h :
  fst (separate_vocals E a d m h) <> Raise RecursionError.
Proof.
  rewrite separate_vocals_depth. cbn [separate_vocals_rec].
  change (contains "4stems" "spleeter:2stems") with false. cbv iota.
  run_prims.
  repeat match goal with
         | |- context [if ?c then _ else _] => destruct c; cbn
         end; discriminate.
Qed.

(** X3: a TwoStem call whose directory can be made and whose engine run
    exits with status 0 returns the accompaniment path after exactly
    three calls: makedirs, gc.collect and the engine run. *)
Lemma two_stem_success a d h :
  os_makedirs E h d = true ->
  subprocess_run E (h ++ setup_events d) (spleeter_cmd TwoStem d a) = true ->
  separate_vocals E a d TwoStem h =
  (Ok (accompaniment_path a d),
   h ++ setup_events d ++ [EvRun (spleeter_cmd TwoStem d a) true]).
Proof.
  intros Hm Hr. rewrite separate_vocals_flat by reflexivity.
  cbn [separate_vocals_rec]. rewrite two_stems_literal. run_prims.
  rewrite Hm. flat_history. unfold setup_events in Hr. rewrite Hr.
  flat_history. reflexivity.
Qed.

(** In a history-blind environment the value of a TwoStem call does not
    depend on the history it starts from. *)
Lemma two_stem_value_blind a d h h' :
  history_blind E ->
  fst (separate_vocals E a d TwoStem h) = fst (separate_vocals E a d TwoStem h').
Proof.
  intros (Hm & Hr & _).
  rewrite !separate_vocals_flat by reflexivity.
  cbn [separate_vocals_rec]. rewrite two_stems_literal. run_prims.
  rewrite (Hm h h').
  destruct (os_makedirs E h' d); [|reflexivity].
  rewrite (Hr ((h ++ _) ++ _) ((h' ++ [EvMakedirs d true]) ++ [EvGcCollect])).
  destruct (subprocess_run E _ _); reflexivity.
Qed.

(** X5: the downsampling of a FourStem call is outside the [try]: when
    it fails the call raises CalledProcessError at once, the engine is
    not run and two stems are not tried. *)
Lemma four_stem_downsample_failure a d h :
  os_makedirs E h d = true ->
  subprocess_run E (h ++ setup_events d)
                 (downsample_cmd a (four_stem_input d)) = false ->
  separate_vocals E a d FourStem h =
  (Raise CalledProcessError,
   h ++ setup_events d ++ [EvRun (downsample_cmd a (four_stem_input d)) false]).
Proof.
  intros Hm Hr. rewrite separate_vocals_depth.
  cbn [separate_vocals_rec]. rewrite four_stems_literal. run_prims.
  rewrite Hm. flat_history. unfold setup_events, four_stem_input in Hr. rewrite Hr.
  flat_history. reflexivity.
Qed.

(** The handler of a failed FourStem run: the call continues as the
    TwoStem call from the history reached. *)
Lemma four_stem_handler a d h :
  os_makedirs E h d = true ->
  subprocess_run E (h ++ setup_events d)
                 (downsample_cmd a (four_stem_input d)) = true ->
  subprocess_run E (downsampled a d h) (four_stem_cmd d) = false ->
  separate_vocals E a d FourStem h =
  separate_vocals E a d TwoStem (four_stem_failed a d h).
Proof.
  intros Hm Hd Hr.
  rewrite (separate_vocals_flat a d TwoStem) by reflexivity.
  rewrite separate_vocals_depth.
  unfold four_stem_failed, downsampled, four_stem_cmd, setup_events, four_stem_input,
    TwoStem, FourStem in *.
  cbn [separate_vocals_rec].
  change (contains "4stems" "spleeter:4stems") with true.
  change (contains "4stems" "spleeter:2stems") with false. cbv iota.
  revert Hd Hr. flat_history. intros Hd Hr.
  run_prims. rewrite Hm. flat_history. rewrite Hd. flat_history.
  rewrite Hr. flat_history. reflexivity.
Qed.

End SeparateVocals.

Section SeparateVocalsClaims.

Import Worlds Worlds2.

(** C1 (as amended): a FourStem call whose downsampling succeeded and whose
    engine run exits with an error absorbs that error and degrades to the
    TwoStem path.  It returns the TwoStem accompaniment path when the
    TwoStem engine run succeeds, and raises that run's
    [CalledProcessError] when it fails as well; nothing more is run. *)
Theorem four_stem_engine_failure_absorbed (E : Env) (a d : string) (h : history) :
  os_makedirs E h d = true ->
  subprocess_run E (h ++ setup_events d) (downsample_cmd a (four_stem_input d)) = true ->
  subprocess_run E (downsampled a d h) (four_stem_cmd d) = false ->
  os_makedirs E (four_stem_failed a d h) d = true ->
  separate_vocals E a d FourStem h =
  let h' := four_stem_failed a d h ++ setup_events d in
  let ok := subprocess_run E h' (spleeter_cmd TwoStem d a) in
  (if ok then Ok (accompaniment_path a d) else Raise CalledProcessError,
   h' ++ [EvRun (spleeter_cmd TwoStem d a) ok]).
Proof.
  intros Hm Hd Hr Hm2.
  rewrite (four_stem_handler E a d h Hm Hd Hr).
  rewrite separate_vocals_flat by reflexivity.
  cbn [separate_vocals_rec]. rewrite two_stems_literal. run_prims.
  rewrite Hm2. flat_history. unfold setup_events.
  destruct (subprocess_run E (four_stem_failed a d h ++ _) _); reflexivity.
Qed.

Lemma four_stem_engine_failure_absorbed_witness :
  separate_vocals (with_run spleeter_4stems_down calm) sample_audio sample_dir FourStem [] =
  (Ok "/tmp/tmpk3y/original_audio/accompaniment.wav"%string,
   four_stem_failed sample_audio sample_dir [] ++ setup_events sample_dir
     ++ [EvRun (spleeter_cmd TwoStem sample_dir sample_audio) true]).
Proof.
  rewrite (four_stem_engine_failure_absorbed
             (with_run spleeter_4stems_down calm) sample_audio sample_dir []);
    reflexivity.
Defined.

(** C1 (as stated) fails: a FourStem call raises [CalledProcessError] to
    its caller when the TwoStem retry fails too, when the downsampling
    before the engine run fails, and when the mix of the stems after a
    successful run fails. *)
Lemma four_stem_call_can_raise :
  fst (separate_vocals (with_run spleeter_down calm)
                       sample_audio sample_dir FourStem []) = Raise CalledProcessError
  /\ fst (separate_vocals (with_run all_down calm)
                          sample_audio sample_dir FourStem []) = Raise CalledProcessError
  /\ fst (separate_vocals (with_files present present (with_run mix_down calm))
                          sample_audio sample_dir FourStem []) = Raise CalledProcessError.
Proof. repeat split; vm_compute; reflexivity. Qed.

(** C2: when the engine run of a FourStem call exits with an error, the
    call returns exactly what the TwoStem call on the same audio file and
    directory returns: it is that call, made from the history reached;
    and where the answers of the world do not depend on the history, it is
    the value of the TwoStem call made in place of the FourStem one. *)
Theorem four_stem_failure_equals_two_stem (E : Env) (a d : string) (h : history) :
  os_makedirs E h d = true ->
  subprocess_run E (h ++ setup_events d) (downsample_cmd a (four_stem_input d)) = true ->
  subprocess_run E (downsampled a d h) (four_stem_cmd d) = false ->
  separate_vocals E a d FourStem h =
    separate_vocals E a d TwoStem (four_stem_failed a d h)
  /\ (history_blind E ->
      fst (separate_vocals E a d FourStem h) = fst (separate_vocals E a d TwoStem h)).
Proof.
  intros Hm Hd Hr. split.
  - now apply four_stem_handler.
  - intros Hblind. rewrite (four_stem_handler E a d h Hm Hd Hr).
    now apply two_stem_value_blind.
Qed.

Lemma calm_4stems_down_blind : history_blind (with_run spleeter_4stems_down calm).
Proof. repeat split. Qed.

Lemma four_stem_failure_equals_two_stem_witness :
  separate_vocals (with_run spleeter_4stems_down calm) sample_audio sample_dir FourStem [] =
    separate_vocals (with_run spleeter_4stems_down calm) sample_audio sample_dir TwoStem
                    (four_stem_failed sample_audio sample_dir [])
  /\ fst (separate_vocals (with_run spleeter_4stems_down calm)
                          sample_audio sample_dir FourStem [])
     = fst (separate_vocals (with_run spleeter_4stems_down calm)
                            sample_audio sample_dir TwoStem []).
Proof.
  destruct (four_stem_failure_equals_two_stem
              (with_run spleeter_4stems_down calm) sample_audio sample_dir [])
    as [Heq Hblind]; try reflexivity.
  split; [exact Heq | exact (Hblind calm_4stems_down_blind)].
Defined.

(** C3 (as amended): when the engine run of a FourStem call exits with
    status 0 and [other.wav] is absent from the directory named after the
    audio file, the call runs nothing more: it skips the mix and returns
    the accompaniment path of the two-stem layout, without checking that
    this file exists. *)
Theorem four_stem_missing_stems_returns_accompaniment_path
        (E : Env) (a d : string) (h : history) :
  os_makedirs E h d = true ->
  subprocess_run E (h ++ setup_events d) (downsample_cmd a (four_stem_input d)) = true ->
  subprocess_run E (downsampled a d h) (four_stem_cmd d) = true ->
  os_path_exists E (downsampled a d h ++ [EvRun (four_stem_cmd d) true])
                 (other_stem_path a d) = false ->
  separate_vocals E a d FourStem h =
  (Ok (accompaniment_path a d),
   downsampled a d h ++ [EvRun (four_stem_cmd d) true;
                         EvExists (other_stem_path a d) false]).
Proof.
  intros Hm Hd Hr Hx. rewrite separate_vocals_depth.
  unfold downsampled, four_stem_cmd, setup_events, four_stem_input, other_stem_path,
    accompaniment_path, FourStem in *.
  cbn [separate_vocals_rec].
  change (contains "4stems" "spleeter:4stems") with true. cbv iota.
  revert Hd Hr Hx. flat_history. intros Hd Hr Hx.
  run_prims. rewrite Hm. flat_history. rewrite Hd. flat_history.
  rewrite Hr. flat_history. rewrite Hx. flat_history. reflexivity.
Qed.

Lemma four_stem_missing_stems_returns_accompaniment_path_witness :
  separate_vocals calm sample_audio sample_dir FourStem [] =
  (Ok (accompaniment_path sample_audio sample_dir),
   downsampled sample_audio sample_dir []
     ++ [EvRun (four_stem_cmd sample_dir) true;
         EvExists (other_stem_path sample_audio sample_dir) false]).
Proof.
  apply (four_stem_missing_stems_returns_accompaniment_path
           calm sample_audio sample_dir []); reflexivity.
Defined.

(** C3 (as stated) fails: in a world where the four-stem run succeeds
    without writing the stems and the two-stem model cannot run, the
    fallback of an engine failure would raise; the FourStem call instead
    returns a path, which does not exist, and never invokes the two-stem
    model. *)
Lemma missing_stems_are_not_treated_as_engine_failure :
  let W := with_run spleeter_2stems_down calm in
  let r := separate_vocals W sample_audio sample_dir FourStem [] in
  fst r = Ok "/tmp/tmpk3y/original_audio/accompaniment.wav"%string
  /\ os_path_exists W (snd r) "/tmp/tmpk3y/original_audio/accompaniment.wav" = false
  /\ existsb is_two_stem_run (snd r) = false
  /\ fst (separate_vocals W sample_audio sample_dir TwoStem (snd r))
     = Raise CalledProcessError.
Proof. repeat split; vm_compute; reflexivity. Qed.

(** C4: a TwoStem call whose engine run exits with an error raises
    [CalledProcessError] to its caller, and the failed run is the last
    thing it does: no other model is tried. *)
Theorem two_stem_failure_propagates (E : Env) (a d : string) (h : history) :
  os_makedirs E h d = true ->
  subprocess_run E (h ++ setup_events d) (spleeter_cmd TwoStem d a) = false ->
  separate_vocals E a d TwoStem h =
  (Raise CalledProcessError,
   h ++ setup_events d ++ [EvRun (spleeter_cmd TwoStem d a) false]).
Proof.
  intros Hm Hr. rewrite separate_vocals_flat by reflexivity.
  cbn [separate_vocals_rec]. rewrite two_stems_literal. run_prims.
  rewrite Hm. flat_history. unfold setup_events in Hr. rewrite Hr.
  flat_history. reflexivity.
Qed.

Lemma two_stem_failure_propagates_witness :
  separate_vocals (with_run spleeter_down calm) sample_audio sample_dir TwoStem [] =
  (Raise CalledProcessError,
   setup_events sample_dir ++ [EvRun (spleeter_cmd TwoStem sample_dir sample_audio) false]).
Proof.
  apply (two_stem_failure_propagates
           (with_run spleeter_down calm) sample_audio sample_dir []); reflexivity.
Defined.

End SeparateVocalsClaims.

(** ** Transcription *)

Ltac split_cases :=
  repeat match goal with
         | |- context [match ?x with _ => _ end] =>
             lazymatch x with
             | context [match _ with _ => _ end] => fail
             | _ => destruct x eqn:?
             end
         end.

Section FloatFacts.

Lemma above_180_is_nonzero (d : float) :
  (180 <? d)%float = true -> (d =? 0)%float = false.
Proof.
  rewrite ltb_spec, eqb_spec.
  change (Prim2SF 0) with (S754_zero false).
  set (c := Prim2SF 180). vm_compute in c. subst c.
  unfold SFltb, SFeqb, SFcompare.
  destruct (Prim2SF d) as [s|s| |s m e]; try destruct s; congruence.
Qed.


End FloatFacts.

Section Transcription.

Variable E : Env.



(** The probe of [transcribe_audio] runs before its [try]. *)
Lemma transcribe_audio_probe_failure (a name : string) (h : history) :
  subprocess_check_output E (h ++ [EvGcCollect]) (ffprobe_cmd a) = None ->
  transcribe_audio E a name h =
  (Raise CalledProcessError, h ++ [EvGcCollect; EvCheckOutput (ffprobe_cmd a) None]).
Proof.
  intros Hp. unfold transcribe_audio. run_prims. rewrite Hp.
  flat_history. reflexivity.
Qed.

(** X9: output of the probe that is not a number is swallowed by the
    bare [except]: no scratch file is made and the original audio goes
    to the engine. *)
Lemma transcribe_audio_unparseable_duration (a name raw : string) (decoded : pystr)
      (h : history) :
  subprocess_check_output E (h ++ [EvGcCollect]) (ffprobe_cmd a) = Some raw ->
  bytes_decode E raw = Some decoded ->
  float_of_str E (strip decoded) = None ->
  whisper_load_model E (probed a raw h) name = true ->
  transcribe_audio E a name h =
  let h' := probed a raw h ++ [EvLoadModel name true] in
  let res := whisper_transcribe E h' name a in
  (match res with Some segs => Ok segs | None => Raise EngineError end,
   h' ++ [EvTranscribe name a res]).
Proof.
  intros Hp Hdec Hf Hl. unfold transcribe_audio, choose_transcription_input, probed in *.
  run_prims. rewrite Hp, Hdec, Hf. cbn [fst snd]. flat_history. rewrite Hl.
  cbv zeta. flat_history.
  destruct (whisper_transcribe E _ name a); reflexivity.
Qed.

(** [get_video_duration] never raises. *)
Lemma get_video_duration_total (p : string) (h : history) :
  exists r, fst (get_video_duration E p h) = Ok r.
Proof.
  unfold get_video_duration. run_prims.
  split_cases; cbn [fst]; eexists; reflexivity.
Qed.

(** A failing probe process gives [None]. *)
Lemma get_video_duration_probe_failure (p : string) (h : history) :
  subprocess_check_output E h (ffprobe_cmd p) = None ->
  get_video_duration E p h = (Ok None, h ++ [EvCheckOutput (ffprobe_cmd p) None]).
Proof.
  intros Hp. unfold get_video_duration. run_prims. rewrite Hp. reflexivity.
Qed.

End Transcription.

Section TranscriptionClaims.

Import Worlds Worlds2.





Lemma scratch_path_truthy (a : string) : truthy_str (scratch_path a) = true.
Proof.
  unfold scratch_path, join.
  change (prefix "/" "downsampled_for_whisper.wav") with false. cbv iota.
  destruct (_ || _); destruct (dirname a); reflexivity.
Qed.

(** C6 (as amended): when the probe of [transcribe_audio] reports more than
    180 seconds, the scratch file has been written and the model is loaded,
    then: if the engine call returns, the scratch file is looked up right
    after it and removed when present, and the segments are returned
    whatever the removal answers; if the engine call raises, its error is
    raised and the scratch file is not touched. *)
Theorem scratch_file_removed_when_engine_returns
        (E : Env) (a name raw : string) (decoded : pystr) (d : float) (h : history) :
  subprocess_check_output E (h ++ [EvGcCollect]) (ffprobe_cmd a) = Some raw ->
  bytes_decode E raw = Some decoded ->
  float_of_str E (strip decoded) = Some d ->
  (180 <? d)%float = true ->
  subprocess_run E (probed a raw h) (downsample_cmd a (scratch_path a)) = true ->
  whisper_load_model E
    (probed a raw h ++ [EvRun (downsample_cmd a (scratch_path a)) true]) name = true ->
  transcribe_audio E a name h =
  let scratch := scratch_path a in
  let h1 := scratch_created a raw name h in
  match whisper_transcribe E h1 name scratch with
  | None => (Raise EngineError, h1 ++ [EvTranscribe name scratch None])
  | Some segs =>
      let h2 := h1 ++ [EvTranscribe name scratch (Some segs)] in
      if os_path_exists E h2 scratch
      then (Ok segs,
            h2 ++ [EvExists scratch true;
                   EvRemove scratch (os_remove E (h2 ++ [EvExists scratch true]) scratch)])
      else (Ok segs, h2 ++ [EvExists scratch false])
  end.
Proof.
  intros Hp Hdec Hf Hd Hr Hl.
  unfold transcribe_audio, choose_transcription_input, scratch_created, probed in *.
  fold (scratch_path a). cbv zeta.
  revert Hr Hl. flat_history. intros Hr Hl.
  run_prims. rewrite Hp, Hdec, Hf, Hd. flat_history. rewrite Hr.
  cbn [fst snd]. flat_history. rewrite Hl. flat_history.
  destruct (whisper_transcribe E _ name (scratch_path a)) as [segs|]; [|reflexivity].
  rewrite scratch_path_truthy. flat_history.
  destruct (os_path_exists E _ (scratch_path a)); [|reflexivity].
  flat_history. destruct (os_remove E _ _); reflexivity.
Qed.

Lemma scratch_file_removed_when_engine_returns_witness :
  transcribe_audio long_audio_world sample_audio "tiny" [] =
  (Ok [],
   scratch_created sample_audio "240.000000" "tiny" []
     ++ [EvTranscribe "tiny" (scratch_path sample_audio) (Some []);
         EvExists (scratch_path sample_audio) true;
         EvRemove (scratch_path sample_audio) true]).
Proof.
  rewrite (scratch_file_removed_when_engine_returns
             long_audio_world sample_audio "tiny" "240.000000"
             (text "240.000000") 240%float []); reflexivity.
Defined.

(** C6 (as stated) fails: the scratch file is written, the engine call
    raises, and [transcribe_audio] ends without any call of [os.remove]:
    the scratch file is still there. *)
Lemma scratch_file_survives_engine_error :
  let W := with_transcribe (fun _ _ _ => None) long_audio_world in
  let r := transcribe_audio W sample_audio "tiny" [] in
  fst r = Raise EngineError
  /\ In (EvRun (downsample_cmd sample_audio (scratch_path sample_audio)) true) (snd r)
  /\ existsb is_remove (snd r) = false
  /\ os_path_exists W (snd r) (scratch_path sample_audio) = true.
Proof.
  vm_compute. repeat split. repeat (first [left; reflexivity | right]).
Qed.

(** C7, evaluated where the probe process fails for every file:
    [get_video_duration] returns [None], but the probe inside
    [transcribe_audio] is outside its [try] and raises
    [CalledProcessError]; the run stops after the milestone 50 and reports
    the error. *)
Lemma probe_failure_aborts_transcription :
  let W := with_probe (fun _ _ => None) calm in
  fst (get_video_duration W "/tmp/tmpk3y/input_video.mp4" []) = Ok None
  /\ transcribe_audio W sample_audio "tiny" [] =
     (Raise CalledProcessError,
      [EvGcCollect; EvCheckOutput (ffprobe_cmd sample_audio) None])
  /\ progress_updates (snd (generate W sample_settings 1000 [])) = [10; 20; 50]%Z
  /\ In (EvSt (StError (error_notice W CalledProcessError))) (snd (generate W sample_settings 1000 [])).
Proof.
  repeat split; try (vm_compute; reflexivity).
  vm_compute. repeat (first [left; reflexivity | right]).
Qed.

End TranscriptionClaims.

(** ** Subtitles *)

Section StripFacts.

Lemma lstrip_split (s : pystr) :
  exists l, s = l ++ lstrip s /\ forallb is_space l = true.
Proof.
  induction s as [|c s (l & Hs & Hl)]; [now exists []|].
  cbn [lstrip]. destruct (is_space c) eqn:Hc.
  - exists (c :: l). cbn. rewrite Hc, Hl. now rewrite <- Hs.
  - now exists [].
Qed.

Lemma lstrip_head (s : pystr) (c : N) (rest : pystr) :
  lstrip s = c :: rest -> is_space c = false.
Proof.
  induction s as [|x s IH]; [discriminate|].
  cbn [lstrip]. destruct (is_space x) eqn:Hx; [exact IH|].
  intros [= -> _]. exact Hx.
Qed.

Lemma forallb_rev {A} (f : A -> bool) (l : list A) :
  forallb f (rev l) = forallb f l.
Proof.
  induction l as [|x l IH]; [reflexivity|].
  cbn. rewrite forallb_app, IH. cbn. rewrite andb_true_r. apply andb_comm.
Qed.

Lemma rstrip_split (s : pystr) :
  exists r, s = rstrip s ++ r /\ forallb is_space r = true.
Proof.
  unfold rstrip. destruct (lstrip_split (rev s)) as (l & Hs & Hl).
  exists (rev l). split.
  - rewrite <- rev_app_distr, <- Hs. now rewrite rev_involutive.
  - now rewrite forallb_rev.
Qed.

Lemma rstrip_last (s : pystr) (c : N) (front : pystr) :
  rstrip s = front ++ [c] -> is_space c = false.
Proof.
  unfold rstrip. intros H. apply (f_equal (@rev N)) in H.
  rewrite rev_involutive, rev_app_distr in H. cbn in H.
  now apply lstrip_head in H.
Qed.

(** [strip] removes a run of white space at each end and nothing else. *)
Lemma strip_spec (s : pystr) :
  (exists l r, s = l ++ strip s ++ r
               /\ forallb is_space l = true /\ forallb is_space r = true)
  /\ trimmed (strip s).
Proof.
  unfold strip.
  destruct (lstrip_split s) as (l & Hs & Hl).
  destruct (rstrip_split (lstrip s)) as (r & Ht & Hr).
  split.
  - exists l, r. rewrite <- Ht. auto.
  - split.
    + intros c rest Hc. rewrite Hc in Ht. cbn in Ht.
      now apply lstrip_head in Ht.
    + intros c front Hc. now apply rstrip_last in Hc.
Qed.

End StripFacts.

Section SubtitleFacts.






End SubtitleFacts.

Section SubtitleClaims.

Import Worlds Worlds2.



Example backwards_segment_is_written :
  snd (create_subtitles calm [backwards_segment] "/tmp/tmpk3y/lyrics.srt" []) =
  [EvSrtSave "/tmp/tmpk3y/lyrics.srt"
     [{| item_index := 1;
         item_start := Timedelta (-1.5)%float;
         item_end := Timedelta (-2)%float;
         item_text := text "la la" |}] true].
Proof. reflexivity. Qed.

End SubtitleClaims.

(** ** Progress *)

Section Quiet.

Variable E : Env.

Lemma progress_updates_app (h1 h2 : history) :
  progress_updates (h1 ++ h2) = progress_updates h1 ++ progress_updates h2.
Proof.
  induction h1 as [|ev h1 IH]; [reflexivity|].
  destruct ev as [| | | | | | | | | | | | |[]]; cbn; rewrite IH; reflexivity.
Qed.

Lemma progress_updates_quiet (q : history) :
  quiet q -> progress_updates q = [].
Proof.
  unfold quiet. induction q as [|ev q IH]; [reflexivity|].
  destruct ev; cbn; try discriminate; exact IH.
Qed.

Lemma progress_updates_quiet_app (q rest : history) :
  quiet q -> progress_updates (q ++ rest) = progress_updates rest.
Proof.
  intros Hq. now rewrite progress_updates_app, progress_updates_quiet.
Qed.

Lemma composition_quiet_app (q rest : history) :
  quiet q ->
  composition_completed_from false (q ++ rest) = composition_completed_from false rest.
Proof.
  unfold quiet. induction q as [|ev q IH]; [reflexivity|].
  destruct ev; cbn; try discriminate; exact IH.
Qed.

Ltac quiet_cases :=
  run_prims; split_cases; cbn [fst snd]; flat_history;
  (eexists; split; [reflexivity | reflexivity]).

Lemma get_video_duration_quiet (p : string) (h : history) :
  exists new, snd (get_video_duration E p h) = h ++ new /\ quiet new.
Proof.
  unfold get_video_duration, quiet.
  run_prims; split_cases; cbn [fst snd]; flat_history;
    try (eexists; split; [reflexivity | reflexivity]).
  all: exists []; now rewrite app_nil_r.
Qed.

Lemma separate_vocals_quiet (a d m : string) (h : history) :
  exists new, snd (separate_vocals E a d m h) = h ++ new /\ quiet new.
Proof.
  rewrite separate_vocals_depth. unfold quiet. cbn [separate_vocals_rec].
  change (contains "4stems" "spleeter:2stems") with false. cbv iota.
  quiet_cases.
Qed.

Lemma transcribe_audio_quiet (a name : string) (h : history) :
  exists new, snd (transcribe_audio E a name h) = h ++ new /\ quiet new.
Proof.
  unfold transcribe_audio, choose_transcription_input, quiet. quiet_cases.
Qed.

End Quiet.

Section StatusLines.

Lemma saving_is_not_composing : String.eqb saving_status composing_status = false.
Proof. reflexivity. Qed.

Lemma extracting_is_not_composing : String.eqb extracting_status composing_status = false.
Proof. reflexivity. Qed.

Lemma separating_is_not_composing (m : string) :
  String.eqb (separating_status m) composing_status = false.
Proof. reflexivity. Qed.

Lemma transcribing_is_not_composing (m : string) :
  String.eqb (transcribing_status m) composing_status = false.
Proof. reflexivity. Qed.

Lemma subtitles_is_not_composing : String.eqb subtitles_status composing_status = false.
Proof. reflexivity. Qed.

Lemma done_is_not_composing : String.eqb done_status composing_status = false.
Proof. reflexivity. Qed.

Lemma composing_is_composing : String.eqb composing_status composing_status = true.
Proof. reflexivity. Qed.

End StatusLines.

Section Progress.

Variable E : Env.

Lemma quiet_plain (q : history) : quiet q -> plain q [].
Proof.
  intros Hq. split; [now apply progress_updates_quiet|].
  intros rest. now apply composition_quiet_app.
Qed.

Lemma progress_updates_plain_app (seg rest : history) (ps : list Z) :
  plain seg ps -> progress_updates (seg ++ rest) = ps ++ progress_updates rest.
Proof. intros [<- _]. apply progress_updates_app. Qed.

Lemma composition_plain_app (seg rest : history) (ps : list Z) :
  plain seg ps ->
  composition_completed_from false (seg ++ rest) = composition_completed_from false rest.
Proof. intros [_ H]. apply H. Qed.

Lemma composition_plain (seg : history) (ps : list Z) :
  plain seg ps -> composition_completed_from false seg = false.
Proof.
  intros [_ H]. specialize (H []). now rewrite app_nil_r in H.
Qed.

Lemma reachable_displays_sound (ps : list Z) (done : bool) :
  In (ps, done) reachable_displays ->
  (exists rest, ps ++ rest = milestones)
  /\ Sorted Z.le (0%Z :: ps)
  /\ Forall (fun p => In p milestones) ps
  /\ (In 100%Z ps <-> done = true).
Proof.
  intros Hin. cbn in Hin.
  repeat match goal with H : _ \/ _ |- _ => destruct H as [H|H] end;
    try contradiction; injection Hin as <- <-;
    (split; [eexists; reflexivity|]);
    (split; [repeat constructor; lia|]);
    (split; [repeat constructor; cbn; tauto|]);
    cbn; split; intros H; try reflexivity; try discriminate; try tauto;
    repeat match goal with H : _ \/ _ |- _ => destruct H as [H|H] end;
    try discriminate; contradiction.
Qed.

Ltac observe :=
  repeat (cbn [progress_updates composition_completed_from app];
          rewrite <- ?app_assoc;
          rewrite ?saving_is_not_composing, ?extracting_is_not_composing,
            ?separating_is_not_composing, ?transcribing_is_not_composing,
            ?subtitles_is_not_composing, ?done_is_not_composing,
            ?composing_is_composing;
          repeat match goal with
                 | H : plain ?seg _ |- context [progress_updates (?seg ++ _)] =>
                     rewrite (progress_updates_plain_app _ _ _ H)
                 | H : plain ?seg _ |- context [composition_completed_from false (?seg ++ _)] =>
                     rewrite (composition_plain_app _ _ _ H)
                 | H : plain ?seg _ |- context [progress_updates ?seg] =>
                     rewrite (proj1 H)
                 | H : plain ?seg _ |- context [composition_completed_from false ?seg] =>
                     rewrite (composition_plain _ _ H)
                 end).

Ltac quiet_call lemma call :=
  let new := fresh "new" in
  let Hs := fresh "Hs" in
  let Hq := fresh "Hq" in
  destruct lemma as (new & Hs & Hq);
  apply quiet_plain in Hq;
  destruct call as [[?|?] ?];
  cbn [fst snd] in Hs; subst.

Ltac case_step :=
  match goal with
  | |- context [match ?x with _ => _ end] =>
      lazymatch x with
      | context [match _ with _ => _ end] => fail
      | _ => destruct x
      end
  end.

Ltac stage_step :=
  match goal with
  | |- context [separate_vocals E ?a ?d ?m ?h0] =>
      quiet_call (separate_vocals_quiet E a d m h0) (separate_vocals E a d m h0)
  | |- context [transcribe_audio E ?a ?m ?h0] =>
      quiet_call (transcribe_audio_quiet E a m h0) (transcribe_audio E a m h0)
  | |- context [get_video_duration E ?p ?h0] =>
      quiet_call (get_video_duration_quiet E p h0) (get_video_duration E p h0)
  | _ => case_step
  end; cbv beta iota.

(** The separation stage updates the progress to 50 as the last thing it
    does, and only when it returns. *)
Lemma separation_stage_progress (cfg : settings) (a d : string) (h : history) :
  exists new r,
    separation_stage E cfg a d h = (r, h ++ new)
    /\ plain new (match r with Ok _ => [50%Z] | Raise _ => [] end).
Proof.
  unfold separation_stage.
  unfold bind, try_except, st, emit, ret, raise.
  repeat stage_step.
  all: flat_history; (do 2 eexists; split; [reflexivity|]).
  all: split; [|intros rest]; observe; reflexivity.
Qed.

(** The transcription stage updates the progress to 70 as the last thing
    it does, and only when it returns. *)
Lemma transcription_stage_progress (cfg : settings) (duration : option float)
      (a : string) (h : history) :
  exists new r,
    transcription_stage E cfg duration a h = (r, h ++ new)
    /\ plain new (match r with Ok _ => [70%Z] | Raise _ => [] end).
Proof.
  unfold transcription_stage.
  unfold bind, try_except, st, emit, ret, raise.
  repeat stage_step.
  all: flat_history; (do 2 eexists; split; [reflexivity|]).
  all: split; [|intros rest]; observe; reflexivity.
Qed.

Ltac plain_call lemma call :=
  let new := fresh "new" in
  let r := fresh "r" in
  let Hs := fresh "Hs" in
  let Hp := fresh "Hp" in
  destruct lemma as (new & r & Hs & Hp);
  rewrite Hs; clear Hs; destruct r as [?|?].

Ltac pipeline_step :=
  match goal with
  | |- context [separation_stage E ?c ?a ?d ?h0] =>
      plain_call (separation_stage_progress c a d h0) (separation_stage E c a d h0)
  | |- context [transcription_stage E ?c ?du ?a ?h0] =>
      plain_call (transcription_stage_progress c du a h0)
                 (transcription_stage E c du a h0)
  | _ => stage_step
  end; cbv beta iota.

(** Every run of [generate] ends in one of the reachable displays. *)
Lemma generate_display (cfg : settings) (size : Z) (h : history) :
  exists new r,
    generate E cfg size h = (r, h ++ new)
    /\ In (progress_updates new, composition_completed new) reachable_displays.
Proof.
  unfold generate, pipeline, extract_audio, create_subtitles, create_final_video,
    composition_completed.
  unfold bind, try_except, makedirs, run, srt_save, mkdtemp, save_upload,
    open_rb, st, checked, emit, ret, raise.
  repeat pipeline_step.
  all: flat_history; (do 2 eexists; split; [reflexivity|]).
  all: observe; cbn; tauto.
Qed.

(** C9: along every run of the button's code, whatever the world answers
    (the fallbacks of the separation included), the values passed to
    [progress_bar.progress] form an initial part of 10, 20, 50, 70, 80, 100:
    starting from the 0 of the new bar they never decrease, and they are
    milestone values only; and 100 is among them exactly when the final
    composition, the command run right after its announcement,
    completed. *)
Theorem progress_follows_milestones (cfg : settings) (size : Z) (h : history) :
  exists new,
    snd (generate E cfg size h) = h ++ new
    /\ (exists rest, progress_updates new ++ rest = milestones)
    /\ Sorted Z.le (0%Z :: progress_updates new)
    /\ Forall (fun p => In p milestones) (progress_updates new)
    /\ (In 100%Z (progress_updates new) <-> composition_completed new = true).
Proof.
  destruct (generate_display cfg size h) as (new & r & Hrun & Hin).
  exists new. split; [now rewrite Hrun|].
  now apply reachable_displays_sound.
Qed.

End Progress.

Section ProgressExamples.

Import Worlds Worlds2.

(** A run through the fallback of the orchestrator: the downsampling for
    the four-stem model fails, [separate_vocals] raises, and the stage is
    run again with two stems. *)
Example fallback_run_reaches_100 :
  let W := with_run (fun _ cmd => negb (contains "downsampled_audio.wav" cmd)) calm in
  let cfg := {| whisper_model := "base"; separation_model := FourStem;
                subtitle_font_size := 24; keep_temp_files := false |} in
  fst (separate_vocals W sample_audio sample_dir FourStem []) = Raise CalledProcessError
  /\ progress_updates (snd (generate W cfg 1000 [])) = milestones
  /\ composition_completed (snd (generate W cfg 1000 [])) = true.
Proof. repeat split; vm_compute; reflexivity. Qed.

End ProgressExamples.

(** * Further properties of the engine functions *)

Section SeparateVocalsMore.

Variable E : Env.

(** X1: whatever the model and the path taken, a path returned by
    [separate_vocals] is the accompaniment path under the base name of
    the audio, and only CalledProcessError and OSError are raised. *)
Theorem separate_vocals_outcomes (a d m : string) (h : history) :
  match fst (separate_vocals E a d m h) with
  | Ok p => p = accompaniment_path a d
  | Raise e => e = CalledProcessError \/ e = OSError
  end.
Proof.
  rewrite separate_vocals_depth. cbn [separate_vocals_rec].
  change (contains "4stems" "spleeter:2stems") with false. cbv iota.
  unfold accompaniment_path. run_prims.
  split_cases;
    match goal with H : fst _ = _ |- _ => cbn [fst] in H; inversion H; auto end.
Qed.

(** X2: one call of [separate_vocals] only adds to the history, runs the
    separation engine at most twice with a four-stem model and at most
    once otherwise, prints the fallback message at most once and only
    when the engine was run, and never reaches the recursion limit. *)
Theorem separate_vocals_engine_runs (a d m : string) (h : history) :
  exists new,
    snd (separate_vocals E a d m h) = h ++ new
    /\ length (filter is_engine_run new) <= (if contains "4stems" m then 2 else 1)
    /\ length (filter is_print new) <= Nat.min 1 (length (filter is_engine_run new))
    /\ fst (separate_vocals E a d m h) <> Raise RecursionError.
Proof.
  rewrite separate_vocals_depth. cbn [separate_vocals_rec].
  change (contains "4stems" "spleeter:2stems") with false. cbv iota.
  run_prims.
  destruct (contains "4stems" m);
    split_cases; cbn [fst snd]; flat_history;
    (eexists; split; [reflexivity|]);
    unfold spleeter_cmd, spleeter_mwf_cmd, downsample_cmd, mix_cmd; cbn;
    (split; [lia|split; [lia|discriminate]]).
Qed.

(** X4: a FourStem call whose downsampling and engine run succeed and
    whose [other.wav] exists mixes drums, bass and other into the
    accompaniment path; the mix is outside the [try], so its failure is
    raised as CalledProcessError. *)
Theorem four_stem_mixes_stems (a d : string) (h : history) :
  os_makedirs E h d = true ->
  subprocess_run E (h ++ setup_events d) (downsample_cmd a (four_stem_input d)) = true ->
  subprocess_run E (downsampled a d h) (four_stem_cmd d) = true ->
  os_path_exists E (downsampled a d h ++ [EvRun (four_stem_cmd d) true])
                 (other_stem_path a d) = true ->
  separate_vocals E a d FourStem h =
  let ok := subprocess_run E (stems_found a d h) (four_stem_mix_cmd a d) in
  (if ok then Ok (accompaniment_path a d) else Raise CalledProcessError,
   stems_found a d h ++ [EvRun (four_stem_mix_cmd a d) ok]).
Proof.
  intros Hm Hd Hr Hx. rewrite separate_vocals_depth.
  unfold stems_found, four_stem_mix_cmd, downsampled, four_stem_cmd, setup_events,
    four_stem_input, other_stem_path, accompaniment_path, FourStem in *.
  cbn [separate_vocals_rec].
  change (contains "4stems" "spleeter:4stems") with true. cbv iota zeta.
  revert Hd Hr Hx. flat_history. intros Hd Hr Hx.
  run_prims. rewrite Hm. flat_history. rewrite Hd. flat_history.
  rewrite Hr. flat_history. rewrite Hx. flat_history.
  destruct (subprocess_run E _ (mix_cmd _ _ _ _)); reflexivity.
Qed.

End SeparateVocalsMore.

Section SeparateVocalsExamples.

Import Worlds Worlds2.

Lemma four_stem_mixes_stems_witness :
  separate_vocals (with_files present present calm) sample_audio sample_dir FourStem [] =
  (Ok (accompaniment_path sample_audio sample_dir),
   stems_found sample_audio sample_dir []
     ++ [EvRun (four_stem_mix_cmd sample_audio sample_dir) true]).
Proof.
  rewrite (four_stem_mixes_stems (with_files present present calm)
                                 sample_audio sample_dir []); reflexivity.
Defined.

Lemma two_stem_success_witness :
  separate_vocals calm sample_audio sample_dir TwoStem [] =
  (Ok (accompaniment_path sample_audio sample_dir),
   setup_events sample_dir ++ [EvRun (spleeter_cmd TwoStem sample_dir sample_audio) true]).
Proof.
  apply (two_stem_success calm sample_audio sample_dir []); reflexivity.
Defined.

Lemma four_stem_downsample_failure_witness :
  separate_vocals (with_run all_down calm) sample_audio sample_dir FourStem [] =
  (Raise CalledProcessError,
   setup_events sample_dir
     ++ [EvRun (downsample_cmd sample_audio (four_stem_input sample_dir)) false]).
Proof.
  apply (four_stem_downsample_failure (with_run all_down calm)
                                      sample_audio sample_dir []); reflexivity.
Defined.

End SeparateVocalsExamples.

Section StageMore.

Variable E : Env.

Lemma last_event_app (h1 h2 : history) (ev : event) :
  last_event h2 = Some ev -> last_event (h1 ++ h2) = Some ev.
Proof.
  intros H. induction h1 as [|x h1 IH]; [exact H|].
  cbn [app last_event]. destruct (h1 ++ h2) eqn:Heq; [|exact IH].
  destruct h1; [|discriminate]. cbn in Heq. subst h2. discriminate.
Qed.

Lemma last_event_cons (x : event) (h : history) (ev : event) :
  last_event h = Some ev -> last_event (x :: h) = Some ev.
Proof. apply (last_event_app [x]). Qed.

(** One call of [separate_vocals], seen from its caller. *)
Lemma separate_vocals_seen (a d m : string) (h : history) :
  exists new r,
    separate_vocals E a d m h = (r, h ++ new)
    /\ quiet new
    /\ match r with
       | Ok p => p = accompaniment_path a d
       | Raise e =>
           (e = CalledProcessError \/ e = OSError)
           /\ (e = CalledProcessError -> contains "4stems" m = false ->
               last_event new = Some (EvRun (spleeter_cmd m d a) false))
       end.
Proof.
  rewrite separate_vocals_depth. cbn [separate_vocals_rec].
  change (contains "4stems" "spleeter:2stems") with false. cbv iota.
  unfold accompaniment_path, quiet. run_prims.
  destruct (contains "4stems" m);
    split_cases; flat_history;
    (do 2 eexists; split; [reflexivity|]; split; [reflexivity|]);
    auto; split; auto; intros; try discriminate; reflexivity.
Qed.

(** X6: the separation stage of the orchestrator returns the
    accompaniment path and then reports 50 as its last call, or raises
    CalledProcessError or OSError without reporting progress; with a
    four-stem model a CalledProcessError leaves only after a two-stem
    engine run failed. *)
Theorem separation_stage_outcomes (cfg : settings) (a d : string) (h : history) :
  exists new r,
    separation_stage E cfg a d h = (r, h ++ new)
    /\ match r with
       | Ok p =>
           p = accompaniment_path a d
           /\ last_event new = Some (EvSt (Progress 50))
           /\ progress_updates new = [50%Z]
       | Raise e =>
           (e = CalledProcessError \/ e = OSError)
           /\ progress_updates new = []
           /\ (e = CalledProcessError ->
               contains "4stems" (separation_model cfg) = true ->
               last_event new = Some (EvRun (spleeter_cmd "spleeter:2stems" d a) false))
       end.
Proof.
  unfold separation_stage. unfold bind, try_except, st, emit, ret, raise.
  destruct (separate_vocals_seen a d (separation_model cfg)
              (h ++ [EvSt (StatusText (separating_status (separation_model cfg)))]))
    as (new1 & r1 & Hrun1 & Hq1 & Hr1).
  rewrite Hrun1. destruct r1 as [p|e].
  - subst p. flat_history. do 2 eexists. split; [reflexivity|].
    split; [reflexivity|]. split.
    + apply last_event_cons, last_event_app. reflexivity.
    + cbn [progress_updates]. now rewrite progress_updates_quiet_app.
  - destruct Hr1 as [He Hlast].
    destruct e; try (destruct He; discriminate).
    + destruct (contains "4stems" (separation_model cfg)) eqn:Hc.
      * match goal with
        | |- context [separate_vocals E a d "spleeter:2stems" ?h0] =>
            destruct (separate_vocals_seen a d "spleeter:2stems" h0)
              as (new2 & r2 & Hrun2 & Hq2 & Hr2)
        end.
        rewrite Hrun2. destruct r2 as [p|e2].
        -- subst p. flat_history. do 2 eexists. split; [reflexivity|].
           split; [reflexivity|]. split.
           ++ apply last_event_cons, last_event_app, last_event_cons, last_event_app.
              reflexivity.
           ++ cbn [progress_updates]. rewrite progress_updates_quiet_app by assumption.
              cbn [progress_updates]. now rewrite progress_updates_quiet_app.
        -- destruct Hr2 as [He2 Hlast2]. flat_history.
           do 2 eexists. split; [reflexivity|]. split; [exact He2|]. split.
           ++ cbn [progress_updates]. rewrite progress_updates_quiet_app by assumption.
              cbn [progress_updates]. now apply progress_updates_quiet.
           ++ intros -> _.
              apply last_event_cons, last_event_app, last_event_cons.
              now apply Hlast2.
      * flat_history. do 2 eexists. split; [reflexivity|]. split; [auto|]. split.
        -- cbn [progress_updates]. now apply progress_updates_quiet.
        -- discriminate.
    + flat_history. do 2 eexists. split; [reflexivity|]. split; [auto|]. split.
      * cbn [progress_updates]. now apply progress_updates_quiet.
      * discriminate.
Qed.

End StageMore.

Section TranscribeMore.

Variable E : Env.

(** X7: for audio of at most 180 seconds [transcribe_audio] makes no
    scratch file: the engine reads the original audio and nothing is
    queried or removed afterwards. *)
Theorem short_audio_is_transcribed_as_is
        (a name raw : string) (decoded : pystr) (d : float) (h : history) :
  subprocess_check_output E (h ++ [EvGcCollect]) (ffprobe_cmd a) = Some raw ->
  bytes_decode E raw = Some decoded ->
  float_of_str E (strip decoded) = Some d ->
  (180 <? d)%float = false ->
  whisper_load_model E (probed a raw h) name = true ->
  transcribe_audio E a name h =
  let h' := probed a raw h ++ [EvLoadModel name true] in
  let res := whisper_transcribe E h' name a in
  (match res with Some segs => Ok segs | None => Raise EngineError end,
   h' ++ [EvTranscribe name a res]).
Proof.
  intros Hp Hdec Hf Hd Hl. unfold transcribe_audio, choose_transcription_input, probed in *.
  run_prims. rewrite Hp, Hdec, Hf, Hd. cbn [fst snd]. flat_history. rewrite Hl.
  cbv zeta. flat_history.
  destruct (whisper_transcribe E _ name a); reflexivity.
Qed.

(** X8: when the downsampling of long audio fails, the bare [except]
    swallows the failure: the engine reads the original audio, and the
    scratch path, already set, is still queried and removed when present. *)
Theorem failed_downsampling_is_swallowed
        (a name raw : string) (decoded : pystr) (d : float) (h : history) :
  subprocess_check_output E (h ++ [EvGcCollect]) (ffprobe_cmd a) = Some raw ->
  bytes_decode E raw = Some decoded ->
  float_of_str E (strip decoded) = Some d ->
  (180 <? d)%float = true ->
  subprocess_run E (probed a raw h) (downsample_cmd a (scratch_path a)) = false ->
  whisper_load_model E
    (probed a raw h ++ [EvRun (downsample_cmd a (scratch_path a)) false]) name = true ->
  transcribe_audio E a name h =
  let scratch := scratch_path a in
  let h1 := probed a raw h
              ++ [EvRun (downsample_cmd a scratch) false; EvLoadModel name true] in
  match whisper_transcribe E h1 name a with
  | None => (Raise EngineError, h1 ++ [EvTranscribe name a None])
  | Some segs =>
      let h2 := h1 ++ [EvTranscribe name a (Some segs)] in
      if os_path_exists E h2 scratch
      then (Ok segs,
            h2 ++ [EvExists scratch true;
                   EvRemove scratch (os_remove E (h2 ++ [EvExists scratch true]) scratch)])
      else (Ok segs, h2 ++ [EvExists scratch false])
  end.
Proof.
  intros Hp Hdec Hf Hd Hr Hl.
  unfold transcribe_audio, choose_transcription_input, probed in *.
  fold (scratch_path a). cbv zeta.
  revert Hr Hl. flat_history. intros Hr Hl.
  run_prims. rewrite Hp, Hdec, Hf, Hd. flat_history. rewrite Hr.
  cbn [fst snd]. flat_history. rewrite Hl. flat_history.
  destruct (whisper_transcribe E _ name a) as [segs|]; [|reflexivity].
  rewrite scratch_path_truthy. flat_history.
  destruct (os_path_exists E _ (scratch_path a)); [|reflexivity].
  flat_history. destruct (os_remove E _ _); reflexivity.
Qed.

(** X10: the segments [transcribe_audio] returns are those the engine
    gave for the audio or for its scratch copy; only CalledProcessError,
    UnicodeDecodeError and the error of the engine are raised; the
    engine transcribes at most once. *)
Theorem transcribe_audio_outcomes (a name : string) (h : history) :
  exists new r,
    transcribe_audio E a name h = (r, h ++ new)
    /\ match r with
       | Ok segs =>
           In (EvTranscribe name a (Some segs)) new
           \/ In (EvTranscribe name (scratch_path a) (Some segs)) new
       | Raise e =>
           e = CalledProcessError \/ e = UnicodeDecodeError \/ e = EngineError
       end
    /\ length (filter (fun ev => match ev with EvTranscribe _ _ _ => true | _ => false end)
                      new) <= 1.
Proof.
  unfold transcribe_audio, choose_transcription_input. fold (scratch_path a). run_prims.
  split_cases; cbn [fst snd]; flat_history;
    (do 2 eexists; split; [reflexivity|]); (split; [|cbn; lia]);
    cbn; tauto.
Qed.

End TranscribeMore.

Section TranscribeExamples.

Import Worlds Worlds2 Worlds3.

Lemma short_audio_is_transcribed_as_is_witness :
  transcribe_audio short_audio_world sample_audio "base" [] =
  (Ok [],
   probed sample_audio "60.000000" []
     ++ [EvLoadModel "base" true; EvTranscribe "base" sample_audio (Some [])]).
Proof.
  rewrite (short_audio_is_transcribed_as_is short_audio_world sample_audio "base"
             "60.000000" (text "60.000000") 60%float []); reflexivity.
Defined.

Lemma failed_downsampling_is_swallowed_witness :
  transcribe_audio whisper_downsample_down sample_audio "tiny" [] =
  (Ok [],
   probed sample_audio "240.000000" []
     ++ [EvRun (downsample_cmd sample_audio (scratch_path sample_audio)) false;
         EvLoadModel "tiny" true;
         EvTranscribe "tiny" sample_audio (Some []);
         EvExists (scratch_path sample_audio) true;
         EvRemove (scratch_path sample_audio) true]).
Proof.
  rewrite (failed_downsampling_is_swallowed whisper_downsample_down sample_audio "tiny"
             "240.000000" (text "240.000000") 240%float []); reflexivity.
Defined.

Lemma transcribe_audio_unparseable_duration_witness :
  transcribe_audio unreadable_probe sample_audio "base" [] =
  (Ok [],
   probed sample_audio "N/A" []
     ++ [EvLoadModel "base" true; EvTranscribe "base" sample_audio (Some [])]).
Proof.
  rewrite (transcribe_audio_unparseable_duration unreadable_probe sample_audio "base"
             "N/A" (text "N/A") []); reflexivity.
Defined.

End TranscribeExamples.

Section Escaping.

(** The command of [create_final_video] holds the subtitle path escaped. *)
Lemma final_video_cmd_escapes (v i s o : string) (f : Z) :
  final_video_cmd v i s o f =
  ("ffmpeg -i " ++ quoted v ++ " -i " ++ quoted i ++ " "
    ++ "-vf " ++ quoted ("subtitles=" ++ escape_subtitle_path s
                         ++ ":force_style='FontSize=" ++ str_of_int f ++ "'")
    ++ " "
    ++ "-map 0:v -map 1:a -c:v libx264 -preset faster -crf 28 -c:a aac -b:a 128k "
    ++ quoted o ++ " -y")%string.
Proof. reflexivity. Qed.

Lemma escape_cons (c : ascii) (s : string) :
  escape_subtitle_path (String c s) =
  if Ascii.eqb c "\" then ("\\" ++ escape_subtitle_path s)%string
  else if Ascii.eqb c ":" then ("\:" ++ escape_subtitle_path s)%string
  else String c (escape_subtitle_path s).
Proof.
  unfold escape_subtitle_path. cbn [replace_char].
  destruct (Ascii.eqb c "\") eqn:Hb.
  - reflexivity.
  - cbn [replace_char]. destruct (Ascii.eqb c ":"); reflexivity.
Qed.

Lemma unescape_escape (s : string) : unescape (escape_subtitle_path s) = s.
Proof.
  induction s as [|c s IH]; [reflexivity|].
  rewrite escape_cons.
  destruct (Ascii.eqb c "\") eqn:Hb.
  - apply Ascii.eqb_eq in Hb. subst c. cbn. now rewrite IH.
  - destruct (Ascii.eqb c ":") eqn:Hc.
    + apply Ascii.eqb_eq in Hc. subst c. cbn. now rewrite IH.
    + cbn [unescape]. rewrite Hb. now rewrite IH.
Qed.

(** X15: the command of [create_final_video] holds the subtitle path
    escaped, and the escaping loses nothing (two paths with the same
    escaped form are equal), leaves no colon without a backslash before
    it, and leaves a path without backslash and colon as it is. *)
Theorem escape_subtitle_path_sound (s1 s2 : string) :
  (forall (v i o : string) (f : Z),
      final_video_cmd v i s1 o f =
      ("ffmpeg -i " ++ quoted v ++ " -i " ++ quoted i ++ " "
        ++ "-vf " ++ quoted ("subtitles=" ++ escape_subtitle_path s1
                             ++ ":force_style='FontSize=" ++ str_of_int f ++ "'")
        ++ " "
        ++ "-map 0:v -map 1:a -c:v libx264 -preset faster -crf 28 -c:a aac -b:a 128k "
        ++ quoted o ++ " -y")%string)
  /\ (escape_subtitle_path s1 = escape_subtitle_path s2 -> s1 = s2)
  /\ colons_escaped (escape_subtitle_path s1) = true
  /\ (existsb is_special (list_ascii_of_string s1) = false ->
      escape_subtitle_path s1 = s1).
Proof.
  split; [intros; apply final_video_cmd_escapes|].
  split; [|split].
  - intros H. apply (f_equal unescape) in H. now rewrite !unescape_escape in H.
  - induction s1 as [|c s IH]; [reflexivity|].
    rewrite escape_cons.
    destruct (Ascii.eqb c "\") eqn:Hb; [exact IH|].
    destruct (Ascii.eqb c ":") eqn:Hc; [exact IH|].
    cbn [colons_escaped]. now rewrite Hb, Hc, IH.
  - induction s1 as [|c s IH]; [reflexivity|].
    cbn [list_ascii_of_string existsb]. intros H.
    apply orb_false_elim in H as [Hc Hrest].
    apply orb_false_elim in Hc as [Hb Hcol].
    rewrite escape_cons, Hb, Hcol. now rewrite IH.
Qed.

End Escaping.

Section DurationFacts.

Variable E : Env.

Lemma above_300_is_nonzero (d : float) :
  (300 <? d)%float = true -> (d =? 0)%float = false.
Proof.
  rewrite FloatAxioms.ltb_spec, FloatAxioms.eqb_spec.
  change (Prim2SF 0) with (S754_zero false).
  set (c := Prim2SF 300). vm_compute in c. subst c.
  unfold SFltb, SFeqb, SFcompare.
  destruct (Prim2SF d) as [s|s| |s m e]; try destruct s; congruence.
Qed.

(** X12: the truth test in [duration and duration > limit] never hides a
    long duration: for the limits 180 and 300 of the orchestrator the
    condition is the plain comparison, and it is false when the duration
    is unknown. *)
Theorem duration_exceeds_is_comparison (d : float) :
  duration_exceeds (Some d) 180 = (180 <? d)%float
  /\ duration_exceeds (Some d) 300 = (300 <? d)%float
  /\ duration_exceeds None 180 = false
  /\ duration_exceeds None 300 = false.
Proof.
  unfold duration_exceeds, truthy_duration. repeat split.
  - destruct (180 <? d)%float eqn:H; [|apply andb_false_r].
    now rewrite (above_180_is_nonzero d H).
  - destruct (300 <? d)%float eqn:H; [|apply andb_false_r].
    now rewrite (above_300_is_nonzero d H).
Qed.

(** X11: [get_video_duration] never raises and makes one call, the
    probe: it returns the parsed duration, and [None] when the probe
    fails, its output is not text, or the text is not a number. *)
Theorem get_video_duration_never_raises (p : string) (h : history) :
  get_video_duration E p h =
  let out := subprocess_check_output E h (ffprobe_cmd p) in
  (Ok match out with
      | Some raw =>
          match bytes_decode E raw with
          | Some decoded => float_of_str E (strip decoded)
          | None => None
          end
      | None => None
      end,
   h ++ [EvCheckOutput (ffprobe_cmd p) out]).
Proof.
  unfold get_video_duration. run_prims. cbv zeta.
  destruct (subprocess_check_output E h (ffprobe_cmd p)) as [raw|]; [|reflexivity].
  destruct (bytes_decode E raw) as [decoded|]; [|reflexivity].
  destruct (float_of_str E (strip decoded)); reflexivity.
Qed.

End DurationFacts.

Section SubtitleMore.

Lemma lstrip_all_space (s : pystr) : forallb is_space s = true -> lstrip s = [].
Proof.
  induction s as [|c s IH]; [reflexivity|].
  cbn. destruct (is_space c); [exact IH|discriminate].
Qed.

Lemma strip_empty_iff (s : pystr) : strip s = [] <-> forallb is_space s = true.
Proof.
  split.
  - intros H. destruct (strip_spec s) as [(l & r & Hs & Hl & Hr) _].
    rewrite H in Hs. cbn in Hs. subst s. now rewrite forallb_app, Hl, Hr.
  - intros H. unfold strip. now rewrite (lstrip_all_space s H).
Qed.

(** X13: the text of a subtitle entry is empty exactly when the text of
    its segment is white space only, the empty text included. *)
Theorem blank_segment_gives_empty_text (i : nat) (seg : segment) :
  item_text (subtitle_item i seg) = [] <-> forallb is_space (seg_text seg) = true.
Proof. apply strip_empty_iff. Qed.



End SubtitleMore.

(** * Further properties of the orchestrator *)

Section Backstage.

Variable E : Env.

Lemma removed_app (h1 h2 : history) : removed (h1 ++ h2) = removed h1 ++ removed h2.
Proof.
  induction h1 as [|ev h1 IH]; [reflexivity|].
  destruct ev; cbn; rewrite IH; reflexivity.
Qed.

Lemma quiet_existsb (f : event -> bool) (q rest : history) :
  (forall ev, f ev = true -> not_widget ev = false) ->
  quiet q -> existsb f (q ++ rest) = existsb f rest.
Proof.
  intros Hf Hq. rewrite existsb_app.
  assert (existsb f q = false) as ->; [|reflexivity].
  unfold quiet in Hq. induction q as [|ev q IH]; [reflexivity|].
  cbn in *. apply andb_prop in Hq as [Hev Hq].
  rewrite (IH Hq), orb_false_r.
  destruct (f ev) eqn:Hfev; [|reflexivity].
  apply Hf in Hfev. congruence.
Qed.

Lemma error_notice_quiet_app (q rest : history) :
  quiet q -> existsb is_error_notice (q ++ rest) = existsb is_error_notice rest.
Proof. apply quiet_existsb. intros [| | | | | | | | | | | | |[]]; cbn; congruence. Qed.

Lemma result_quiet_app (q rest : history) :
  quiet q -> existsb is_result (q ++ rest) = existsb is_result rest.
Proof. apply quiet_existsb. intros [| | | | | | | | | | | | |[]]; cbn; congruence. Qed.

Lemma bar_quiet_app (q rest : history) :
  quiet q -> existsb is_bar (q ++ rest) = existsb is_bar rest.
Proof. apply quiet_existsb. intros [| | | | | | | | | | | | |[]]; cbn; congruence. Qed.

Ltac backstage_cases :=
  run_prims; split_cases; flat_history;
  (do 2 eexists; split; [reflexivity|]);
  (split; [reflexivity|]); (split; [reflexivity|]);
  intros reached rest Hfloor;
  unfold spleeter_cmd, spleeter_mwf_cmd, downsample_cmd, mix_cmd, ffprobe_cmd;
  cbn; rewrite ?Hfloor; reflexivity.

Lemma get_video_duration_backstage (p : string) (h : history) :
  exists new r,
    get_video_duration E p h = (r, h ++ new) /\ backstage 0 [] new.
Proof.
  unfold get_video_duration, backstage, quiet. run_prims.
  split_cases; flat_history;
    (do 2 eexists; split; [reflexivity|]); repeat split.
Qed.

Lemma separate_vocals_backstage (a d m : string) (h : history) :
  exists new r,
    separate_vocals E a d m h = (r, h ++ new) /\ backstage 20 [] new.
Proof.
  rewrite separate_vocals_depth. cbn [separate_vocals_rec].
  change (contains "4stems" "spleeter:2stems") with false. cbv iota.
  unfold backstage, quiet.
  destruct (contains "4stems" m); backstage_cases.
Qed.

Lemma transcribe_audio_backstage (a name : string) (h : history) :
  exists new r rm,
    transcribe_audio E a name h = (r, h ++ new)
    /\ backstage 50 rm new
    /\ (rm = [] \/ rm = [scratch_path a]).
Proof.
  unfold transcribe_audio, choose_transcription_input, backstage, quiet.
  fold (scratch_path a).
  run_prims; split_cases; cbn [fst snd] in *; try discriminate;
    repeat match goal with H : Some _ = Some _ |- _ => injection H as <- end;
    flat_history;
    (do 3 eexists; split; [reflexivity|]);
    (split;
     [ split; [reflexivity|]; split; [reflexivity|];
       intros reached rest Hfloor;
       unfold downsample_cmd, ffprobe_cmd;
       cbn; rewrite ?Hfloor; reflexivity
     | cbn [removed]; auto ]).
Qed.

Lemma extract_is_not_engine_run (v o : string) (ok : bool) :
  is_engine_run (EvRun (extract_audio_cmd v o) ok) = false.
Proof. reflexivity. Qed.

Lemma composition_is_not_engine_run (v i s o : string) (f : Z) (ok : bool) :
  is_engine_run (EvRun (final_video_cmd v i s o f) ok) = false.
Proof. reflexivity. Qed.

Ltac backstage_call lemma :=
  let new := fresh "new" in
  let r := fresh "r" in
  let Hrun := fresh "Hrun" in
  let Hq := fresh "Hq" in
  let Hrm := fresh "Hrm" in
  let Hord := fresh "Hord" in
  destruct lemma as (new & r & Hrun & Hq & Hrm & Hord);
  rewrite Hrun; clear Hrun; destruct r as [?|?].

Ltac transcribe_call lemma :=
  let new := fresh "new" in
  let r := fresh "r" in
  let rm := fresh "rm" in
  let Hrun := fresh "Hrun" in
  let Hq := fresh "Hq" in
  let Hrm := fresh "Hrm" in
  let Hord := fresh "Hord" in
  let Hcase := fresh "Hcase" in
  destruct lemma as (new & r & rm & Hrun & (Hq & Hrm & Hord) & Hcase);
  rewrite Hrun; clear Hrun; destruct r as [?|?]; destruct Hcase; subst rm.

Ltac page_observe :=
  repeat (cbn [progress_updates existsb is_error_notice is_result is_bar removed
               stages_in_order app orb andb Z.leb Z.compare Pos.compare Pos.compare_cont];
          rewrite <- ?app_assoc;
          rewrite ?extract_is_not_engine_run, ?composition_is_not_engine_run;
          repeat match goal with
                 | H : quiet ?seg |- context [progress_updates (?seg ++ _)] =>
                     rewrite (progress_updates_quiet_app _ _ H)
                 | H : quiet ?seg |- context [existsb is_error_notice (?seg ++ _)] =>
                     rewrite (error_notice_quiet_app _ _ H)
                 | H : quiet ?seg |- context [existsb is_result (?seg ++ _)] =>
                     rewrite (result_quiet_app _ _ H)
                 | H : quiet ?seg |- context [existsb is_bar (?seg ++ _)] =>
                     rewrite (bar_quiet_app _ _ H)
                 | H : progress_updates ?seg = _ |- context [progress_updates (?seg ++ _)] =>
                     rewrite (progress_updates_app seg), H
                 | H : removed ?seg = _ |- context [removed (?seg ++ _)] =>
                     rewrite (removed_app seg), H
                 | H : quiet ?seg |- context [progress_updates ?seg] =>
                     rewrite (progress_updates_quiet _ H)
                 | H : removed ?seg = _ |- context [removed ?seg] =>
                     rewrite H
                 | H : forall rest, existsb ?f (?seg ++ rest) = _
                   |- context [existsb ?f (?seg ++ _)] =>
                     rewrite H
                 | H : forall reached rest, _ -> stages_in_order reached (?seg ++ rest) = _
                   |- context [stages_in_order _ (?seg ++ _)] =>
                     rewrite H by reflexivity
                 | H : forall rest, stages_in_order ?from (?seg ++ rest) = _
                   |- context [stages_in_order ?from (?seg ++ _)] =>
                     rewrite H
                 end).

Ltac function_step :=
  match goal with
  | |- context [separate_vocals E ?a ?d ?m ?h0] =>
      backstage_call (separate_vocals_backstage a d m h0)
  | |- context [transcribe_audio E ?a ?m ?h0] =>
      transcribe_call (transcribe_audio_backstage a m h0)
  | |- context [get_video_duration E ?p ?h0] =>
      backstage_call (get_video_duration_backstage p h0)
  | |- context [match ?x with _ => _ end] =>
      lazymatch x with
      | context [match _ with _ => _ end] => fail
      | _ => destruct x
      end
  end; cbv beta iota.

Ltac onstage_goal :=
  unfold onstage, milestone_after, progress_after;
  repeat match goal with
         | |- _ /\ _ => split
         | |- forall _ : list event, _ => intro
         end;
  page_observe; reflexivity.

(** The separation stage, seen from the page. *)
Lemma separation_stage_onstage (cfg : settings) (a d : string) (h : history) :
  exists new r,
    separation_stage E cfg a d h = (r, h ++ new)
    /\ onstage 20 (milestone_after r 20 50) (progress_after r 50) [] new.
Proof.
  unfold separation_stage.
  unfold bind, try_except, st, emit, ret, raise.
  repeat function_step.
  all: flat_history; (do 2 eexists; split; [reflexivity|]).
  all: onstage_goal.
Qed.

(** The transcription stage, seen from the page. *)
Lemma transcription_stage_onstage (cfg : settings) (duration : option float)
      (a : string) (h : history) :
  exists new r rm,
    transcription_stage E cfg duration a h = (r, h ++ new)
    /\ onstage 50 (milestone_after r 50 70) (progress_after r 70) rm new
    /\ (rm = [] \/ rm = [scratch_path a]).
Proof.
  unfold transcription_stage.
  unfold bind, try_except, st, emit, ret, raise.
  repeat function_step.
  all: flat_history; (do 3 eexists; split; [reflexivity|]).
  all: split; [onstage_goal | auto].
Qed.

Ltac onstage_call lemma :=
  let new := fresh "new" in
  let r := fresh "r" in
  let Hrun := fresh "Hrun" in
  let Hps := fresh "Hps" in
  let Hrm := fresh "Hrm" in
  let Herr := fresh "Herr" in
  let Hres := fresh "Hres" in
  let Hbar := fresh "Hbar" in
  let Hord := fresh "Hord" in
  destruct lemma as (new & r & Hrun & Hps & Hrm & Herr & Hres & Hbar & Hord);
  rewrite Hrun; clear Hrun; destruct r as [?|?];
  unfold milestone_after, progress_after in Hps, Hord.

Ltac onstage_transcription lemma :=
  let new := fresh "new" in
  let r := fresh "r" in
  let rm := fresh "rm" in
  let Hrun := fresh "Hrun" in
  let Hps := fresh "Hps" in
  let Hrm := fresh "Hrm" in
  let Herr := fresh "Herr" in
  let Hres := fresh "Hres" in
  let Hbar := fresh "Hbar" in
  let Hord := fresh "Hord" in
  let Hcase := fresh "Hcase" in
  destruct lemma
    as (new & r & rm & Hrun & (Hps & Hrm & Herr & Hres & Hbar & Hord) & Hcase);
  rewrite Hrun; clear Hrun; destruct r as [?|?]; destruct Hcase; subst rm;
  unfold milestone_after, progress_after in Hps, Hord.

Ltac page_step :=
  match goal with
  | |- context [separation_stage E ?c ?a ?d ?h0] =>
      onstage_call (separation_stage_onstage c a d h0)
  | |- context [transcription_stage E ?c ?du ?a ?h0] =>
      onstage_transcription (transcription_stage_onstage c du a h0)
  | _ => function_step
  end; cbv beta iota.

(** Every run of [generate], summed up. *)
Lemma generate_summary (cfg : settings) (size : Z) (h : history) :
  exists new r,
    generate E cfg size h = (r, h ++ new)
    /\ In (progress_updates new, existsb is_error_notice new,
           existsb is_result new, existsb is_bar new) reachable_pages
    /\ r = (if existsb is_bar new then Ok tt else Raise OSError)
    /\ stages_in_order 0 new = true
    /\ exists T, removed new = []
                 \/ removed new = [scratch_path (join T "original_audio.wav")].
Proof.
  unfold generate, pipeline, extract_audio, create_subtitles, create_final_video.
  unfold bind, try_except, makedirs, run, srt_save, mkdtemp, save_upload,
    open_rb, st, checked, emit, ret, raise.
  repeat page_step.
  all: flat_history; (do 2 eexists; split; [reflexivity|]).
  all: page_observe.
  all: split; [cbn; tauto|].
  all: split; [reflexivity|].
  all: split; [reflexivity|].
  all: first [exists EmptyString; left; reflexivity | eexists; right; reflexivity].
Qed.

End Backstage.

Section GenerateMore.

Variable E : Env.

(** X16: a run of [generate] raises only before the progress bar exists
    (OSError from making the working directories) and then shows
    neither progress nor an error; once the bar exists it returns, and
    shows either the error notice or the result, never both and never
    neither; the result is offered only after all six milestones. *)
Theorem generate_contains_failures (cfg : settings) (size : Z) (h : history) :
  exists new r,
    generate E cfg size h = (r, h ++ new)
    /\ r = (if existsb is_bar new then Ok tt else Raise OSError)
    /\ (existsb is_bar new = false ->
        progress_updates new = [] /\ existsb is_error_notice new = false)
    /\ existsb is_result new = existsb is_bar new && negb (existsb is_error_notice new)
    /\ (existsb is_result new = true -> progress_updates new = milestones).
Proof.
  destruct (generate_summary E cfg size h) as (new & r & Hrun & Hin & Hr & _).
  exists new, r. split; [exact Hrun|]. split; [exact Hr|].
  clear Hrun Hr.
  cbn in Hin.
  repeat match goal with
  | H : _ \/ _ |- _ => destruct H as [H|H]
  | H : (_, _, _, _) = (_, _, _, _) |- _ => inversion H; clear H
  | H : False |- _ => destruct H
  end.
  all: repeat split; intros; try reflexivity; try discriminate.
Qed.

(** X17: in a run of [generate] the separation engine runs only after
    milestone 20 was reported, the recognition engine is loaded and run
    only after 50, the subtitles are saved only after 70, and the
    download button appears only after 100. *)
Theorem generate_stages_in_order (cfg : settings) (size : Z) (h : history) :
  exists new,
    snd (generate E cfg size h) = h ++ new /\ stages_in_order 0 new = true.
Proof.
  destruct (generate_summary E cfg size h) as (new & r & Hrun & _ & _ & Ho & _).
  exists new. rewrite Hrun. split; [reflexivity | exact Ho].
Qed.


End GenerateMore.

